(** * Variance bar chart: a shallow embedding of the Power BI visual

    The visual (class [Visual], with its settings model in [settings.ts])
    turns a categorical data view into a list of [BarDataPoint]s and redraws
    an SVG group on every [update].  This file embeds that code and proves
    the properties its specification states.

    Conventions.
    - A JavaScript [number] is the rational it denotes ([Q]): the finite
      numbers.  [NaN], the infinities and the negative zero are outside the
      model.  A number that the code only ever uses as an integer (an array
      index, a length) is a [Z].
    - The products and quotients of the code, the difference its variance
      starts from and its decimal literals are those of IEEE 754 binary64
      ([JS.times], [JS.over], [JS.minus], [JS.literal]): the exact result
      rounded to 53 significant bits, a tie to the even one.  Only the
      bounds of the exponent, that is overflow and underflow, are left out.
      The sums and differences that place an element from scale values and
      margins are written exactly.  The numbers the host hands over are
      doubles: a rational that is no double stands for no number of a run.
    - The DOM below the chart group is a tree of [Element]s; [Visual] is the
      state of the object between two calls.
    - What the d3 library and the JavaScript engine compute and the
      repository does not define (band and linear scales, SI formatting,
      the text of a date) is a field of the class [Runtime]: every theorem
      holds for every runtime. *)

From Stdlib Require Import ZArith QArith Qround Qabs Qpower Lqa Lia.
From Stdlib Require Import Bool List String Ascii.
Import ListNotations.

Set Implicit Arguments.

Local Open Scope Z_scope.

(** ** The JavaScript built-ins the visual calls *)

Module JS.

(** [Math.round]: the nearest integer, a tie going up. *)
Definition Math_round (x : Q) : Z := Qfloor (x + (1 # 2)).

(** [Math.max], [Math.min] and [Math.abs] on numbers. *)
Definition Math_max (a b : Q) : Q := if Qle_bool a b then b else a.
Definition Math_min (a b : Q) : Q := if Qle_bool a b then a else b.
Definition Math_abs (x : Q) : Q := Qabs x.

(** The comparisons [<], [<=] and [===] of two numbers. *)
Definition lt (a b : Q) : bool := negb (Qle_bool b a).
Definition le (a b : Q) : bool := Qle_bool a b.
Definition strict_eq (a b : Q) : bool := Qeq_bool a b.

(** *** Binary64 arithmetic

    An operation of the language returns the double nearest to the exact
    result, the one with the even significand on a tie.  [ilog2 x] is the
    binary exponent of [x <> 0], so that [x / 2^(ilog2 x - 52)] has 53
    binary digits before the point. *)

Definition ilog2 (x : Q) : Z :=
  let l := Z.log2 (Z.abs (Qnum x)) - Z.log2 (Zpos (Qden x)) in
  if Qle_bool (Qpower 2 l) (Qabs x) then l else l - 1.

Definition round_half_even (q : Q) : Z :=
  let f := Qfloor q in
  match Qcompare (q - inject_Z f) (1 # 2) with
  | Lt => f
  | Gt => f + 1
  | Eq => if Z.even f then f else f + 1
  end.

Definition binary64 (x : Q) : Q :=
  if Qeq_bool x 0 then 0%Q
  else
    let unit := Qpower 2 (ilog2 x - 52) in
    Qred (inject_Z (round_half_even (x / unit)) * unit).

(** The operators [*], [/] and [-], and a decimal literal such as [1.15]. *)
Definition times (a b : Q) : Q := binary64 (a * b).
Definition over (a b : Q) : Q := binary64 (a / b).
Definition minus (a b : Q) : Q := binary64 (a - b).
Definition literal (q : Q) : Q := binary64 q.

(** *** Decimal digits of a natural number *)

Definition digit_char (d : Z) : ascii := ascii_of_nat (48 + Z.to_nat d).

Fixpoint digits_aux (fuel : nat) (n : Z) (acc : list ascii) : list ascii :=
  match fuel with
  | O => acc
  | S fuel' =>
      let acc' := digit_char (n mod 10) :: acc in
      if n <? 10 then acc' else digits_aux fuel' (n / 10) acc'
  end.

(** The decimal digits of [n >= 0], most significant first; ["0"] for 0.
    A number has no more decimal than binary digits, which bounds the loop. *)
Definition digits (n : Z) : list ascii :=
  digits_aux (S (Z.to_nat (Z.log2 n))) n [].

Definition decimal (n : Z) : string := string_of_list_ascii (digits n).

(** *** Number::toString (radix 10)

    ECMAScript prints [x > 0] from integers [n], [k] and [s] such that [s]
    has [k] digits, [s * 10^(n-k)] is a decimal that denotes [x], and [k]
    is as small as possible; of several such [s] the one nearest to [x],
    the even one of two. *)

(** The least [n] from a given one on with [x < 10^n]. *)
Fixpoint exponent_from (fuel : nat) (n : Z) (x : Q) : Z :=
  match fuel with
  | O => n
  | S fuel' => if lt x (Qpower 10 n) then n else exponent_from fuel' (n + 1) x
  end.

(** The [n] with [10^(n-1) <= x < 10^n], for [x > 0].  The search starts
    at a power of ten that is not above [x]: [10^(l/4) <= 2^l] for
    [l >= 0] and [10^(l/3) <= 2^l] for [l < 0]. *)
Definition decimal_exponent (x : Q) : Z :=
  let l := ilog2 x in
  exponent_from (S (Z.to_nat (Z.abs l))) (if l <? 0 then l / 3 else l / 4) x.

(** The digits [s] and the exponent [n] of [x > 0], tried with [k], [k + 1],
    ... digits: with [k] digits the two multiples of [10^(n-k)] around [x]
    are the candidates, the nearer one first.  The upper one may be
    [10^k * 10^(n-k)], which is [10^(k-1)] with the exponent [n + 1]. *)
Fixpoint shortest (fuel : nat) (k n : Z) (x : Q) : option (Z * Z) :=
  match fuel with
  | O => None
  | S fuel' =>
      let unit := Qpower 10 (n - k) in
      let lo := Qfloor (x / unit) in
      let near := round_half_even (x / unit) in
      let far := if near =? lo then lo + 1 else lo in
      let denotes s := Qeq_bool (binary64 (inject_Z s * unit)) x in
      let found s := if s =? 10 ^ k then Some (10 ^ (k - 1), n + 1) else Some (s, n) in
      if denotes near then found near
      else if denotes far then found far
      else shortest fuel' (k + 1) n x
  end.

Local Open Scope string_scope.
Local Open Scope Z_scope.

Definition zeros (n : Z) : string :=
  string_of_list_ascii (List.repeat "0"%char (Z.to_nat n)).

(** The digits [s] with the exponent [n]: plain notation for
    [-5 <= n <= 21], exponent notation otherwise. *)
Definition notation (s : list ascii) (n : Z) : string :=
  let k := Z.of_nat (List.length s) in
  if (-5 <=? n) && (n <=? 21) then
    if k <=? n then string_of_list_ascii s ++ zeros (n - k)
    else if 0 <? n then
      string_of_list_ascii (firstn (Z.to_nat n) s) ++ "." ++
      string_of_list_ascii (skipn (Z.to_nat n) s)
    else "0." ++ zeros (- n) ++ string_of_list_ascii s
  else
    let e := (if 0 <? n - 1 then "+" else "-") ++ decimal (Z.abs (n - 1)) in
    match s with
    | [] => ""
    | [d] => String d "" ++ "e" ++ e
    | d :: rest => String d "" ++ "." ++ string_of_list_ascii rest ++ "e" ++ e
    end.

(** Every double is denoted by a decimal of 17 digits or less.  A rational
    that is no double is denoted by no decimal; no run prints one, and its
    text is [other]. *)
Definition Number_toString (other : Q -> string) (x : Q) : string :=
  if Qeq_bool x 0 then "0"
  else
    let a := Qabs x in
    match shortest 17 1 (decimal_exponent a) a with
    | Some (s, n) => (if lt x 0 then "-" else "") ++ notation (digits s) n
    | None => other x
    end.

(** *** Number.prototype.toFixed

    Steps 6 to 10 of the ECMAScript algorithm for a finite [x] and [f]
    fraction digits: the sign is split off; a magnitude of [10^21] or more
    is printed by Number::toString; otherwise [n] is the integer nearest to
    [x * 10^f] (the larger of two), its digits are padded with zeros to
    [f + 1] places and the point is put before the last [f]. *)

Definition pad_zeros (f : nat) (m : list ascii) : list ascii :=
  if (List.length m <=? f)%nat
  then (List.repeat "0"%char (S f - List.length m) ++ m)%list
  else m.

Definition toFixed (other : Q -> string) (x : Q) (f : nat) : string :=
  let s := (if lt x 0 then "-" else "")%string in
  let x := if lt x 0 then Qopp x else x in
  let m :=
    if le (inject_Z (10 ^ 21)) x then Number_toString other x
    else
      let n := Qfloor (x * inject_Z (10 ^ Z.of_nat f) + (1 # 2)) in
      let m := pad_zeros f (digits n) in
      match f with
      | O => string_of_list_ascii m
      | _ =>
          let k := List.length m in
          (string_of_list_ascii (firstn (k - f) m) ++ "." ++
           string_of_list_ascii (skipn (k - f) m))%string
      end
  in
  (s ++ m)%string.

End JS.

(** ** What the host hands to the visual *)

(** A cell of a category column: [PrimitiveValue] of the Power BI API, or
    [null]. *)
Inductive PrimitiveValue : Type :=
| PVNull
| PVString (s : string)
| PVNumber (x : Q)
| PVBoolean (b : bool)
| PVDate (time : Z).

(** A cell of the measure column, which the code reads [as number]: a number
    or [null] ([None]). *)
Definition MeasureValue : Type := option Q.

Record DataViewCategoryColumn : Type :=
  { category_values : list PrimitiveValue }.

Record DataViewValueColumn : Type :=
  { measure_values : list MeasureValue }.

Record DataViewCategorical : Type :=
  { categories : option (list DataViewCategoryColumn);
    values : option (list DataViewValueColumn) }.

(** ** The settings model ([settings.ts]) *)

Record BarSettingsCard : Type :=
  { barColor : string;
    selectedBarColor : string;
    showDataLabels : bool;
    labelFontSize : option Q }.

Record VarianceBubbleCard : Type :=
  { show : bool;
    bubbleColor : string;
    negativeBubbleColor : string;
    fontSize : option Q;
    firstBarIndex : Q;
    secondBarIndex : Q }.

Record VisualFormattingSettingsModel : Type :=
  { barSettingsCard : BarSettingsCard;
    varianceBubbleCard : VarianceBubbleCard }.

(** The values the two cards are built with. *)
Definition default_barSettingsCard : BarSettingsCard :=
  {| barColor := "#4472C4";
     selectedBarColor := "#ED7D31";
     showDataLabels := true;
     labelFontSize := Some 11%Q |}.

Definition default_varianceBubbleCard : VarianceBubbleCard :=
  {| show := true;
     bubbleColor := "#70AD47";
     negativeBubbleColor := "#FF0000";
     fontSize := Some 12%Q;
     firstBarIndex := 1%Q;
     secondBarIndex := 2%Q |}.

(** The persisted properties of a data view ([metadata.objects]): each one
    present or not. *)
Record DataViewObjects : Type :=
  { obj_barColor : option string;
    obj_selectedBarColor : option string;
    obj_showDataLabels : option bool;
    obj_labelFontSize : option (option Q);
    obj_show : option bool;
    obj_bubbleColor : option string;
    obj_negativeBubbleColor : option string;
    obj_fontSize : option (option Q);
    obj_firstBarIndex : option Q;
    obj_secondBarIndex : option Q }.

Record DataView : Type :=
  { categorical : option DataViewCategorical;
    objects : DataViewObjects }.

Record IViewport : Type := { width : Q; height : Q }.

Record VisualUpdateOptions : Type :=
  { dataViews : option (list DataView);
    viewport : IViewport }.

Definition or_default {A : Type} (o : option A) (d : A) : A :=
  match o with Some a => a | None => d end.

(** A slice whose persisted value is [null] keeps its default, as an
    absent one does. *)
Definition or_default_value {A : Type} (o : option (option A)) (d : option A)
  : option A :=
  match o with Some (Some a) => Some a | _ => d end.

(** [FormattingSettingsService.populateFormattingSettingsModel]: a fresh
    model, every slice at its default unless the data view persists it. *)
Definition populateFormattingSettingsModel (dataView : DataView)
  : VisualFormattingSettingsModel :=
  let o := objects dataView in
  let b := default_barSettingsCard in
  let v := default_varianceBubbleCard in
  {| barSettingsCard :=
       {| barColor := or_default (obj_barColor o) (barColor b);
          selectedBarColor := or_default (obj_selectedBarColor o) (selectedBarColor b);
          showDataLabels := or_default (obj_showDataLabels o) (showDataLabels b);
          labelFontSize := or_default_value (obj_labelFontSize o) (labelFontSize b) |};
     varianceBubbleCard :=
       {| show := or_default (obj_show o) (show v);
          bubbleColor := or_default (obj_bubbleColor o) (bubbleColor v);
          negativeBubbleColor := or_default (obj_negativeBubbleColor o) (negativeBubbleColor v);
          fontSize := or_default_value (obj_fontSize o) (fontSize v);
          firstBarIndex := or_default (obj_firstBarIndex o) (firstBarIndex v);
          secondBarIndex := or_default (obj_secondBarIndex o) (secondBarIndex v) |} |}.

(** ** The drawing *)

Inductive AttrValue : Type :=
| ANum (x : Q)
| AStr (s : string).

(** A scale is recorded as the calls that configure it. *)
Record ScaleBand : Type :=
  { band_domain : list string;
    band_range : Q * Q;
    band_padding : Q }.

Record ScaleLinear : Type :=
  { linear_domain : Q * Q;
    linear_nice : bool;
    linear_range : Q * Q }.

Inductive Axis : Type :=
| axisBottom (scale : ScaleBand)
| axisLeft (scale : ScaleLinear) (ticks : Z) (tickFormat : string).

(** An element below the chart group.  What a d3 axis generator draws into
    its group is kept as one node: the generator and the styles put on its
    tick texts. *)
#[warning="-register-all"]
Inductive Element : Type :=
| Node (tag : string) (classes : list string)
       (attrs : list (string * AttrValue)) (styles : list (string * string))
       (text : option string) (children : list Element)
| AxisMarks (axis : Axis) (text_styles : list (string * string)).

(** ** Selections on a group *)

(** An element and everything below it, in document order. *)
Fixpoint descendants (e : Element) : list Element :=
  match e with
  | Node _ _ _ _ _ children => e :: flat_map descendants children
  | AxisMarks _ _ => [e]
  end.

Definition classes_of (e : Element) : list string :=
  match e with
  | Node _ classes _ _ _ _ => classes
  | AxisMarks _ _ => []
  end.

Definition has_class (c : string) (e : Element) : bool :=
  existsb (String.eqb c) (classes_of e).

Definition attr (name : string) (e : Element) : option AttrValue :=
  match e with
  | Node _ _ attrs _ _ _ =>
      option_map snd (find (fun a => String.eqb name (fst a)) attrs)
  | AxisMarks _ _ => None
  end.

Definition text_of (e : Element) : option string :=
  match e with
  | Node _ _ _ _ text _ => text
  | AxisMarks _ _ => None
  end.

(** [group.selectAll(".c")]: the elements of class [c] below a group, whose
    children are given. *)
Definition selectAll (c : string) (children : list Element) : list Element :=
  filter (has_class c) (flat_map descendants children).

(** [group.selectAll("*").remove()]: no child is left. *)
Definition remove_all (children : list Element) : list Element := [].

(** [group.append(...)]: a new last child. *)
Definition append_child (children : list Element) (e : Element) : list Element :=
  children ++ [e].

(** [group.selectAll(".c").data(data).enter().append(...)].  The join is
    by position: the data beyond the number of elements that are already
    of the class enter, and each of them gets a new last child. *)
Definition enter_append {A : Type} (c : string) (make : A -> Element)
    (data : list A) (children : list Element) : list Element :=
  children ++ map make (skipn (List.length (selectAll c children)) data).

(** What the repository calls and does not define. *)
Class Runtime : Type :=
  { (** the text of a rational that is no double (see [JS.Number_toString]) *)
    nondouble_toString : Q -> string;
    (** [Date.prototype.toString] of a time value *)
    Date_toString : Z -> string;
    (** [d3.format(specifier)(x)] *)
    d3_format : string -> Q -> string;
    (** [scale(category)] of a band scale, [undefined] as [None] *)
    scaleBand_call : ScaleBand -> string -> option Q;
    (** [scale.bandwidth()] *)
    scaleBand_bandwidth : ScaleBand -> Q;
    (** [scale(x)] of a linear scale *)
    scaleLinear_call : ScaleLinear -> Q -> Q }.

Section WithRuntime.

Context {runtime : Runtime}.

Local Open Scope string_scope.

(** A number inside a template literal. *)
Definition Number_toString (x : Q) : string :=
  JS.Number_toString nondouble_toString x.

(** Truthiness of a category cell. *)
Definition truthy (v : PrimitiveValue) : bool :=
  match v with
  | PVNull => false
  | PVString s => negb (s =? "")
  | PVNumber x => negb (JS.strict_eq x 0)
  | PVBoolean b => b
  | PVDate _ => true
  end.

(** The string form of a cell ([toString()]; [String(null)] for [null],
    on which the method is never called). *)
Definition PrimitiveValue_toString (v : PrimitiveValue) : string :=
  match v with
  | PVNull => "null"
  | PVString s => s
  | PVNumber x => Number_toString x
  | PVBoolean b => if b then "true" else "false"
  | PVDate t => Date_toString t
  end.

(** *** class Visual *)

Record BarDataPoint : Type :=
  { category : string;
    value : Q;
    index : Z }.

(** The fields of the object: the [width] and [height] attributes of the
    [svg] element, the [transform] attribute and the children of the chart
    group, and the retained settings.  The constructor leaves all empty. *)
Record Visual : Type :=
  { svg_width : option Q;
    svg_height : option Q;
    chartGroup_transform : option string;
    chartGroup : list Element;
    formattingSettings : option VisualFormattingSettingsModel }.

Definition constructor : Visual :=
  {| svg_width := None;
     svg_height := None;
     chartGroup_transform := None;
     chartGroup := [];
     formattingSettings := None |}.

Definition margin_top : Q := 40.
Definition margin_right : Q := 30.
Definition margin_bottom : Q := 60.
Definition margin_left : Q := 60.

(** [this.chartGroup.selectAll("*").remove()] *)
Definition clearChart (self : Visual) : Visual :=
  {| svg_width := svg_width self;
     svg_height := svg_height self;
     chartGroup_transform := chartGroup_transform self;
     chartGroup := remove_all (chartGroup self);
     formattingSettings := formattingSettings self |}.

(** [a && a[0]]: the first element of an array that may be absent. *)
Definition first {A : Type} (a : option (list A)) : option A :=
  match a with
  | Some (x :: _) => Some x
  | _ => None
  end.

(** The callback of [categories.values.map] at row [i]; [None] when
    [values.values[i]] is [undefined], a row the value column does not
    have, which the type [number] of [value] does not cover. *)
Definition dataPoint (values : DataViewValueColumn) (cat : PrimitiveValue) (i : nat)
  : option BarDataPoint :=
  match nth_error (measure_values values) i with
  | None => None
  | Some v =>
      Some {| category := if truthy cat then PrimitiveValue_toString cat else "";
              value := match v with Some x => x | None => 0%Q end;
              index := Z.of_nat i |}
  end.

(** [categories.values.map(callback)], the rows from position [i] on. *)
Fixpoint map_from (values : DataViewValueColumn) (cats : list PrimitiveValue) (i : nat)
  : option (list BarDataPoint) :=
  match cats with
  | [] => Some []
  | cat :: rest =>
      match dataPoint values cat i, map_from values rest (S i) with
      | Some d, Some ds => Some (d :: ds)
      | _, _ => None
      end
  end.

Definition dataPoints_of (categories : DataViewCategoryColumn) (values : DataViewValueColumn)
  : option (list BarDataPoint) :=
  map_from values (category_values categories) 0.

(** *** renderChart and renderVarianceBubble *)

(** [d3.min] and [d3.max] of the values ([undefined], here [None], for no
    value): the first value, replaced by each later one that is strictly
    smaller (larger). *)
Definition d3_min (xs : list Q) : option Q :=
  fold_left
    (fun min x =>
       match min with
       | None => Some x
       | Some m => if JS.lt x m then Some x else Some m
       end)
    xs None.

Definition d3_max (xs : list Q) : option Q :=
  fold_left
    (fun max x =>
       match max with
       | None => Some x
       | Some m => if JS.lt m x then Some x else Some m
       end)
    xs None.

(** [s || fallback] on strings. *)
Definition or_else (s fallback : string) : string :=
  if s =? "" then fallback else s.

(** [rawFirst] and [selectedFirst] (the same for the second index): the
    setting rounded, made zero-based and clamped. *)
Definition rawIndex (setting : Q) : Z := JS.Math_round setting - 1.

Definition selectedIndex (dataPoints : list BarDataPoint) (setting : Q) : Z :=
  Z.max 0 (Z.min (Z.of_nat (List.length dataPoints) - 1) (rawIndex setting)).

Definition xScale_of (dataPoints : list BarDataPoint) (innerWidth : Q) : ScaleBand :=
  {| band_domain := map category dataPoints;
     band_range := (0%Q, innerWidth);
     band_padding := (1 # 4)%Q |}.

Definition yMin_of (dataPoints : list BarDataPoint) : Q :=
  let minValue := or_default (d3_min (map value dataPoints)) 0%Q in
  if JS.lt minValue 0 then JS.times minValue (JS.literal (115 # 100)) else 0%Q.

Definition yMax_of (dataPoints : list BarDataPoint) : Q :=
  let maxValue := or_default (d3_max (map value dataPoints)) 1%Q in
  if JS.lt 0 maxValue then JS.times maxValue (JS.literal (115 # 100)) else 1%Q.

Definition yScale_of (dataPoints : list BarDataPoint) (innerHeight : Q) : ScaleLinear :=
  {| linear_domain := (yMin_of dataPoints, yMax_of dataPoints);
     linear_nice := true;
     linear_range := (innerHeight, 0%Q) |}.

(** [xScale(c) ?? 0] *)
Definition xPos (xScale : ScaleBand) (c : string) : Q :=
  or_default (scaleBand_call xScale c) 0%Q.

(** The top edge of a bar: [d.value >= 0 ? yScale(d.value) : yScale(0)]. *)
Definition barTop (yScale : ScaleLinear) (d : BarDataPoint) : Q :=
  if JS.le 0 (value d) then scaleLinear_call yScale (value d)
  else scaleLinear_call yScale 0.

(** The [fill] callback of the bars. *)
Definition barFill (settings : VisualFormattingSettingsModel)
    (selectedFirst selectedSecond : Z) (d : BarDataPoint) : string :=
  let barSettings := barSettingsCard settings in
  let bubbleSettings := varianceBubbleCard settings in
  let defaultBarColor := or_else (barColor barSettings) "#4472C4" in
  let selectedColor := or_else (selectedBarColor barSettings) "#ED7D31" in
  if ((index d =? selectedFirst)%Z || (index d =? selectedSecond)%Z) && show bubbleSettings
  then selectedColor
  else defaultBarColor.

(** One [rect.bar] with its [title]. *)
Definition barElement (settings : VisualFormattingSettingsModel)
    (xScale : ScaleBand) (yScale : ScaleLinear)
    (selectedFirst selectedSecond : Z) (d : BarDataPoint) : Element :=
  Node "rect" ["bar"]
    [ ("x", ANum (xPos xScale (category d)));
      ("width", ANum (scaleBand_bandwidth xScale));
      ("y", ANum (barTop yScale d));
      ("height", ANum (JS.Math_abs
                         (scaleLinear_call yScale (value d) - scaleLinear_call yScale 0)));
      ("fill", AStr (barFill settings selectedFirst selectedSecond d));
      ("rx", ANum 2);
      ("ry", ANum 2) ]
    [] None
    [ Node "title" [] [] []
        (Some (category d ++ ": " ++ Number_toString (value d))) [] ].

(** One [text.bar-label]. *)
Definition barLabel (labelFontSize : Q) (xScale : ScaleBand) (yScale : ScaleLinear)
    (d : BarDataPoint) : Element :=
  Node "text" ["bar-label"]
    [ ("x", ANum (xPos xScale (category d) + scaleBand_bandwidth xScale / 2));
      ("y", ANum (if JS.le 0 (value d)
                  then scaleLinear_call yScale (value d) - 4
                  else scaleLinear_call yScale (value d) + labelFontSize + 4));
      ("text-anchor", AStr "middle") ]
    [ ("font-size", Number_toString labelFontSize ++ "px");
      ("fill", "#333") ]
    (Some (d3_format ".2s" (value d))) [].

(** [dataPoints[i]] for a number [i] that is an integer. *)
Definition at_index (dataPoints : list BarDataPoint) (i : Z) : option BarDataPoint :=
  if (i <? 0)%Z then None else nth_error dataPoints (Z.to_nat i).

(** [((secondBar.value - firstBar.value) / Math.abs(firstBar.value)) * 100] *)
Definition variancePct_of (firstBar secondBar : BarDataPoint) : Q :=
  JS.times
    (JS.over (JS.minus (value secondBar) (value firstBar))
             (JS.Math_abs (value firstBar)))
    100.

(** The text of the bubble. *)
Definition varianceLabel (variancePct : Q) : string :=
  (if JS.le 0 variancePct then "+" else "")
    ++ JS.toFixed nondouble_toString variancePct 1 ++ "%".

Definition connector (bubbleColor : string) (bubbleCx lineY x connectorY : Q) : Element :=
  Node "line" ["variance-connector"]
    [ ("x1", ANum bubbleCx);
      ("y1", ANum lineY);
      ("x2", ANum x);
      ("y2", ANum connectorY);
      ("stroke", AStr bubbleColor);
      ("stroke-width", ANum (3 # 2));
      ("stroke-dasharray", AStr "4,3") ]
    [] None [].

(** [renderVarianceBubble], on the children of [this.chartGroup]. *)
Definition renderVarianceBubble (group : list Element) (dataPoints : list BarDataPoint)
    (firstIdx secondIdx : Z) (xScale : ScaleBand) (yScale : ScaleLinear)
    (bubbleSettings : VarianceBubbleCard) : list Element :=
  match at_index dataPoints firstIdx, at_index dataPoints secondIdx with
  | Some firstBar, Some secondBar =>
      if JS.strict_eq (value firstBar) 0 then group
      else
        let variancePct := variancePct_of firstBar secondBar in
        let isPositive := JS.le 0 variancePct in
        let positiveColor := or_else (bubbleColor bubbleSettings) "#70AD47" in
        let negativeColor := or_else (negativeBubbleColor bubbleSettings) "#FF0000" in
        let bubbleColor := if isPositive then positiveColor else negativeColor in
        let fontSize := or_default (fontSize bubbleSettings) 12%Q in
        let x1 := (xPos xScale (category firstBar) + scaleBand_bandwidth xScale / 2)%Q in
        let x2 := (xPos xScale (category secondBar) + scaleBand_bandwidth xScale / 2)%Q in
        let bubbleCx := ((x1 + x2) / 2)%Q in
        let topY1 := barTop yScale firstBar in
        let topY2 := barTop yScale secondBar in
        let bubbleCy := (JS.Math_min topY1 topY2 - 30)%Q in
        let bubbleRadius := JS.Math_max 22 (JS.times fontSize (JS.literal (18 # 10))) in
        let lineY := (bubbleCy + bubbleRadius)%Q in
        let connectorY1 := JS.Math_min topY1 lineY in
        let connectorY2 := JS.Math_min topY2 lineY in
        append_child group
          (Node "g" ["variance-bubble-group"] [] [] None
            [ connector bubbleColor bubbleCx lineY x1 connectorY1;
              connector bubbleColor bubbleCx lineY x2 connectorY2;
              Node "circle" ["variance-bubble"]
                [ ("cx", ANum bubbleCx);
                  ("cy", ANum bubbleCy);
                  ("r", ANum bubbleRadius);
                  ("fill", AStr bubbleColor);
                  ("fill-opacity", ANum (JS.literal (9 # 10)));
                  ("stroke", AStr "#fff");
                  ("stroke-width", ANum 2) ]
                [] None [];
              Node "text" ["variance-label"]
                [ ("x", ANum bubbleCx);
                  ("y", ANum (bubbleCy + JS.times fontSize (JS.literal (35 # 100))));
                  ("text-anchor", AStr "middle") ]
                [ ("font-size", Number_toString fontSize ++ "px");
                  ("font-weight", "bold");
                  ("fill", "#fff") ]
                (Some (varianceLabel variancePct)) [] ])
  | _, _ => group
  end.

(** [renderChart]; [None] when [this.formattingSettings] is still
    [undefined] where its cards are read. *)
Definition renderChart (self : Visual) (options : VisualUpdateOptions)
    (dataPoints : list BarDataPoint) : option Visual :=
  let width := width (viewport options) in
  let height := height (viewport options) in
  let innerWidth := (width - margin_left - margin_right)%Q in
  let innerHeight := (height - margin_top - margin_bottom)%Q in
  if JS.le innerWidth 0 || JS.le innerHeight 0 then Some (clearChart self)
  else
    let group := remove_all (chartGroup self) in
    match formattingSettings self with
    | None => None
    | Some settings =>
        let barSettings := barSettingsCard settings in
        let bubbleSettings := varianceBubbleCard settings in
        let selectedFirst := selectedIndex dataPoints (firstBarIndex bubbleSettings) in
        let selectedSecond := selectedIndex dataPoints (secondBarIndex bubbleSettings) in
        let xScale := xScale_of dataPoints innerWidth in
        let yScale := yScale_of dataPoints innerHeight in
        let group :=
          append_child group
            (Node "g" ["x-axis"]
               [ ("transform",
                  AStr ("translate(0," ++ Number_toString (scaleLinear_call yScale 0)
                          ++ ")")) ]
               [] None
               [ AxisMarks (axisBottom xScale) [("font-size", "11px")] ]) in
        let group :=
          append_child group
            (Node "g" ["y-axis"] [] [] None
               [ AxisMarks (axisLeft yScale 5 ".2s") [] ]) in
        let group :=
          enter_append "bar"
            (barElement settings xScale yScale selectedFirst selectedSecond)
            dataPoints group in
        let group :=
          if showDataLabels barSettings
          then enter_append "bar-label"
                 (barLabel (or_default (labelFontSize barSettings) 11%Q) xScale yScale)
                 dataPoints group
          else group in
        let group :=
          if show bubbleSettings && negb (selectedFirst =? selectedSecond)%Z
          then renderVarianceBubble group dataPoints selectedFirst selectedSecond
                 xScale yScale bubbleSettings
          else group in
        Some {| svg_width := Some width;
                svg_height := Some height;
                chartGroup_transform :=
                  Some ("translate(" ++ Number_toString margin_left ++ ","
                          ++ Number_toString margin_top ++ ")");
                chartGroup := group;
                formattingSettings := Some settings |}
    end.

(** [update]; [None] when the run reads [undefined] where the types of
    the code promise a value (see [dataPoint] and [renderChart]). *)
Definition update (self : Visual) (options : VisualUpdateOptions) : option Visual :=
  match first (dataViews options) with
  | None => Some (clearChart self)
  | Some dataView =>
      match categorical dataView with
      | None => Some (clearChart self)
      | Some categorical =>
          let self :=
            {| svg_width := svg_width self;
               svg_height := svg_height self;
               chartGroup_transform := chartGroup_transform self;
               chartGroup := chartGroup self;
               formattingSettings := Some (populateFormattingSettingsModel dataView) |} in
          match first (categories categorical), first (values categorical) with
          | Some categories, Some values =>
              match dataPoints_of categories values with
              | Some dataPoints => renderChart self options dataPoints
              | None => None
              end
          | _, _ => Some (clearChart self)
          end
      end
  end.

End WithRuntime.

(** ** Reading a drawing *)

(** Every element drawn in the chart group. *)
Definition drawn (self : Visual) : list Element :=
  flat_map descendants (chartGroup self).

(** The parts of the variance bubble: its group, the two connector lines,
    the circle and the label. *)
Definition is_bubble_element (e : Element) : bool :=
  has_class "variance-bubble-group" e
  || has_class "variance-connector" e
  || has_class "variance-bubble" e
  || has_class "variance-label" e.

Definition bubble_elements (self : Visual) : list Element :=
  filter is_bubble_element (drawn self).

(** The bars, in document order. *)
Definition bars (self : Visual) : list Element :=
  selectAll "bar" (chartGroup self).

(** The texts of the variance labels among some elements. *)
Definition variance_labels (elements : list Element) : list (option string) :=
  map text_of (filter (has_class "variance-label") (flat_map descendants elements)).

(** ** The paths through update *)

Section Paths.

Context {runtime : Runtime}.

Local Open Scope string_scope.
Local Open Scope list_scope.
Local Open Scope Z_scope.

(** [update] takes [dataView] as the first data view of [options], finds
    both columns in it and derives [dataPoints] from them. *)
Definition reads (options : VisualUpdateOptions) (dataView : DataView)
    (dataPoints : list BarDataPoint) : Prop :=
  exists table cats vals,
    first (dataViews options) = Some dataView
    /\ categorical dataView = Some table
    /\ first (categories table) = Some cats
    /\ first (values table) = Some vals
    /\ dataPoints_of cats vals = Some dataPoints.

(** The result set is absent, has no categorical part, or lacks a column. *)
Inductive unusable (options : VisualUpdateOptions) : Prop :=
| no_dataView :
    first (dataViews options) = None -> unusable options
| no_categorical dataView :
    first (dataViews options) = Some dataView ->
    categorical dataView = None -> unusable options
| no_category_column dataView table :
    first (dataViews options) = Some dataView ->
    categorical dataView = Some table ->
    first (categories table) = None -> unusable options
| no_value_column dataView table :
    first (dataViews options) = Some dataView ->
    categorical dataView = Some table ->
    first (values table) = None -> unusable options.

(** The value column has a cell for every row of the category column, as
    the host builds its data views. *)
Definition aligned (options : VisualUpdateOptions) : Prop :=
  forall dataView table cats vals,
    first (dataViews options) = Some dataView ->
    categorical dataView = Some table ->
    first (categories table) = Some cats ->
    first (values table) = Some vals ->
    (List.length (category_values cats) <= List.length (measure_values vals))%nat.

(** The data point the callback of [map] makes of a category cell and a
    value cell at position [i]. *)
Definition row (cat : PrimitiveValue) (v : MeasureValue) (i : nat) : BarDataPoint :=
  {| category := if truthy cat then PrimitiveValue_toString cat else ""%string;
     value := match v with Some x => x | None => 0%Q end;
     index := Z.of_nat i |}.

Definition innerWidth_of (options : VisualUpdateOptions) : Q :=
  width (viewport options) - margin_left - margin_right.

Definition innerHeight_of (options : VisualUpdateOptions) : Q :=
  height (viewport options) - margin_top - margin_bottom.

(** The inner drawing area is not empty. *)
Definition drawable (options : VisualUpdateOptions) : bool :=
  negb (JS.le (innerWidth_of options) 0 || JS.le (innerHeight_of options) 0).

(** The two effective indices of a rendering. *)
Definition selectedFirst_of (settings : VisualFormattingSettingsModel)
    (dataPoints : list BarDataPoint) : Z :=
  selectedIndex dataPoints (firstBarIndex (varianceBubbleCard settings)).

Definition selectedSecond_of (settings : VisualFormattingSettingsModel)
    (dataPoints : list BarDataPoint) : Z :=
  selectedIndex dataPoints (secondBarIndex (varianceBubbleCard settings)).

(** The last step of [renderChart]: what it appends after the bars and
    their labels. *)
Definition bubble_of (settings : VisualFormattingSettingsModel)
    (innerWidth innerHeight : Q) (dataPoints : list BarDataPoint) : list Element :=
  if show (varianceBubbleCard settings)
     && negb (selectedFirst_of settings dataPoints =? selectedSecond_of settings dataPoints)%Z
  then renderVarianceBubble [] dataPoints
         (selectedFirst_of settings dataPoints) (selectedSecond_of settings dataPoints)
         (xScale_of dataPoints innerWidth) (yScale_of dataPoints innerHeight)
         (varianceBubbleCard settings)
  else [].

(** The children of the chart group after a rendering: the two axes, a
    bar per data point, a label per data point when labels are on, and
    the bubble. *)
Definition chartElements (settings : VisualFormattingSettingsModel)
    (innerWidth innerHeight : Q) (dataPoints : list BarDataPoint) : list Element :=
  let xScale := xScale_of dataPoints innerWidth in
  let yScale := yScale_of dataPoints innerHeight in
  let xAxis :=
    Node "g" ["x-axis"]
      [ ("transform",
         AStr ("translate(0," ++ Number_toString (scaleLinear_call yScale 0)
                 ++ ")")%string) ]
      [] None
      [ AxisMarks (axisBottom xScale) [("font-size", "11px")] ] in
  let yAxis :=
    Node "g" ["y-axis"] [] [] None
      [ AxisMarks (axisLeft yScale 5 ".2s") [] ] in
  let bars :=
    map (barElement settings xScale yScale
           (selectedFirst_of settings dataPoints)
           (selectedSecond_of settings dataPoints)) dataPoints in
  let labels :=
    if showDataLabels (barSettingsCard settings)
    then map (barLabel (or_default (labelFontSize (barSettingsCard settings)) 11%Q)
                xScale yScale) dataPoints
    else [] in
  [xAxis; yAxis] ++ bars ++ labels ++ bubble_of settings innerWidth innerHeight dataPoints.

(** The object after a rendering, and after a clearing that leaves it with
    the settings [retained]. *)
Definition rendered (options : VisualUpdateOptions)
    (settings : VisualFormattingSettingsModel) (dataPoints : list BarDataPoint) : Visual :=
  {| svg_width := Some (width (viewport options));
     svg_height := Some (height (viewport options));
     chartGroup_transform :=
       Some ("translate(" ++ Number_toString margin_left ++ ","
               ++ Number_toString margin_top ++ ")")%string;
     chartGroup :=
       chartElements settings (innerWidth_of options) (innerHeight_of options) dataPoints;
     formattingSettings := Some settings |}.

Definition cleared (self : Visual)
    (retained : option VisualFormattingSettingsModel) : Visual :=
  {| svg_width := svg_width self;
     svg_height := svg_height self;
     chartGroup_transform := chartGroup_transform self;
     chartGroup := [];
     formattingSettings := retained |}.

(** The settings the object holds after [update]: repopulated when a data
    view with a categorical part was there, else the ones it had. *)
Definition retained_of (self : Visual) (options : VisualUpdateOptions)
  : option VisualFormattingSettingsModel :=
  match first (dataViews options) with
  | Some dataView =>
      match categorical dataView with
      | Some _ => Some (populateFormattingSettingsModel dataView)
      | None => formattingSettings self
      end
  | None => formattingSettings self
  end.

Definition defaultBarColor_of (settings : VisualFormattingSettingsModel) : string :=
  or_else (barColor (barSettingsCard settings)) "#4472C4".

Definition selectedColor_of (settings : VisualFormattingSettingsModel) : string :=
  or_else (selectedBarColor (barSettingsCard settings)) "#ED7D31".

End Paths.

(** ** The specification's words, for comparison *)

Module Spec.

(** Clamping [x] into [[lo, hi]]. *)
Definition clamp (lo hi x : Z) : Z :=
  if x <? lo then lo else if hi <? x then hi else x.

Local Open Scope string_scope.

(** The number of tenths nearest to [|x|]. *)
Definition tenths (x : Q) : Z := Qfloor (Qabs x * 10 + (1 # 2)).

(** [x] to one decimal place: sign, integer part, point, one digit. *)
Definition one_decimal (x : Q) : string :=
  let t := tenths x in
  (if Qle_bool 0 x then "" else "-")
    ++ JS.decimal (t / 10) ++ "." ++ JS.decimal (t mod 10).

(** The label: an explicit plus sign when the percentage is not negative. *)
Definition varianceLabel (pct : Q) : string :=
  (if Qle_bool 0 pct then "+" else "") ++ one_decimal pct ++ "%".

(** The string form of a category value, the empty string for [null]. *)
Definition category {runtime : Runtime} (v : PrimitiveValue) : string :=
  match v with
  | PVNull => ""
  | _ => PrimitiveValue_toString v
  end.

End Spec.

(** ** A runtime to run the model on examples

    Band and linear scales as d3 computes them, without the rounding of
    the domain and in exact arithmetic; two fixed decimals in place of the
    SI format.  No theorem depends on it. *)

Module Example.

Local Open Scope Q_scope.

Fixpoint position (c : string) (domain : list string) : option nat :=
  match domain with
  | [] => None
  | d :: rest =>
      if String.eqb c d then Some O else option_map S (position c rest)
  end.

Definition step (s : ScaleBand) : Q :=
  let n := inject_Z (Z.of_nat (List.length (nodup string_dec (band_domain s)))) in
  (snd (band_range s) - fst (band_range s))
    / JS.Math_max 1 (n - band_padding s + band_padding s * 2).

Definition band_call (s : ScaleBand) (c : string) : option Q :=
  let n := inject_Z (Z.of_nat (List.length (nodup string_dec (band_domain s)))) in
  let start :=
    fst (band_range s)
    + (snd (band_range s) - fst (band_range s) - step s * (n - band_padding s)) * (1 # 2) in
  option_map (fun i => Qred (start + step s * inject_Z (Z.of_nat i)))
    (position c (nodup string_dec (band_domain s))).

Definition linear_call (s : ScaleLinear) (x : Q) : Q :=
  let (d0, d1) := linear_domain s in
  let (r0, r1) := linear_range s in
  Qred (r0 + (x - d0) / (d1 - d0) * (r1 - r0)).

#[export] Instance runtime : Runtime :=
  {| nondouble_toString := fun x => JS.toFixed (fun _ => "?"%string) x 3;
     Date_toString :=
       fun t => ("Date(" ++ (if (t <? 0)%Z then "-" else "") ++ JS.decimal (Z.abs t) ++ ")")%string;
     d3_format := fun _ x => JS.toFixed (fun _ => "?"%string) x 2;
     scaleBand_call := band_call;
     scaleBand_bandwidth := fun s => Qred (step s * (1 - band_padding s));
     scaleLinear_call := linear_call |}.

Definition point (c : string) (v : Q) (i : Z) : BarDataPoint :=
  {| category := c; value := v; index := i |}.

Definition no_objects : DataViewObjects :=
  {| obj_barColor := None; obj_selectedBarColor := None; obj_showDataLabels := None;
     obj_labelFontSize := None; obj_show := None; obj_bubbleColor := None;
     obj_negativeBubbleColor := None; obj_fontSize := None;
     obj_firstBarIndex := None; obj_secondBarIndex := None |}.

Definition table (cats : list PrimitiveValue) (vals : list MeasureValue) : DataView :=
  {| categorical :=
       Some {| categories := Some [ {| category_values := cats |} ];
               values := Some [ {| measure_values := vals |} ] |};
     objects := no_objects |}.

Definition options_of (dataView : DataView) (w h : Q) : VisualUpdateOptions :=
  {| dataViews := Some [dataView]; viewport := {| width := w; height := h |} |}.

(** Three bars in a 400 by 300 viewport. *)
Definition sales_points : list BarDataPoint :=
  [point "North" 100 0; point "South" 150 1; point "West" 0 2].

Definition sales_view : DataView :=
  table [PVString "North"; PVString "South"; PVString "West"]
        [Some 100; Some 150; None].

Definition sales : VisualUpdateOptions := options_of sales_view 400 300.

(** The same table with both index settings at 2. *)
Definition same_bar_view : DataView :=
  {| categorical := categorical sales_view;
     objects :=
       {| obj_barColor := None; obj_selectedBarColor := None; obj_showDataLabels := None;
          obj_labelFontSize := None; obj_show := None; obj_bubbleColor := None;
          obj_negativeBubbleColor := None; obj_fontSize := None;
          obj_firstBarIndex := Some 2; obj_secondBarIndex := None |} |}.

Definition same_bar : VisualUpdateOptions := options_of same_bar_view 400 300.

(** The same table with the index settings -3.7 and 99.5. *)
Definition wild_view : DataView :=
  {| categorical := categorical sales_view;
     objects :=
       {| obj_barColor := None; obj_selectedBarColor := None; obj_showDataLabels := None;
          obj_labelFontSize := None; obj_show := None; obj_bubbleColor := None;
          obj_negativeBubbleColor := None; obj_fontSize := None;
          obj_firstBarIndex := Some (- (37 # 10)); obj_secondBarIndex := Some (199 # 2) |} |}.

(** A first bar of value 0. *)
Definition from_zero_points : list BarDataPoint :=
  [point "North" 0 0; point "South" 150 1].

Definition from_zero_view : DataView :=
  table [PVString "North"; PVString "South"] [Some 0; Some 150].

Definition from_zero : VisualUpdateOptions := options_of from_zero_view 400 300.



(** No result set at all. *)
Definition no_result : VisualUpdateOptions :=
  {| dataViews := None; viewport := {| width := 400; height := 300 |} |}.

End Example.

(** ** Further readers, and the formatting model *)

(** The data labels, in document order. *)
Definition labels (self : Visual) : list Element :=
  selectAll "bar-label" (chartGroup self).


Definition attr_str (name : string) (e : Element) : option string :=
  match attr name e with
  | Some (AStr s) => Some s
  | _ => None
  end.

Definition tag_of (e : Element) : option string :=
  match e with
  | Node tag _ _ _ _ _ => Some tag
  | AxisMarks _ _ => None
  end.


(** [getFormattingModel]: what the service builds from the retained
    settings; [buildFormattingModel] is the method of
    [FormattingSettingsService], which is given [undefined] ([None]) as
    long as no settings were populated. *)
Definition getFormattingModel {M : Type}
    (buildFormattingModel : option VisualFormattingSettingsModel -> M)
    (self : Visual) : M :=
  buildFormattingModel (formattingSettings self).

(** A data view that persists no property. *)
Definition unset : DataViewObjects :=
  {| obj_barColor := None; obj_selectedBarColor := None; obj_showDataLabels := None;
     obj_labelFontSize := None; obj_show := None; obj_bubbleColor := None;
     obj_negativeBubbleColor := None; obj_fontSize := None;
     obj_firstBarIndex := None; obj_secondBarIndex := None |}.

(** The three tests before the bubble is drawn: the toggle and the two
    indices in [renderChart], the first bar and its value in
    [renderVarianceBubble]. *)
Definition bubble_due (settings : VisualFormattingSettingsModel)
    (dataPoints : list BarDataPoint) : bool :=
  show (varianceBubbleCard settings)
  && negb (selectedFirst_of settings dataPoints =? selectedSecond_of settings dataPoints)
  && match at_index dataPoints (selectedFirst_of settings dataPoints) with
     | Some firstBar => negb (JS.strict_eq (value firstBar) 0)
     | None => false
     end.

(** More example data. *)
Module Cases.

(** The sales table in a viewport that leaves no inner height. *)
Definition flat : VisualUpdateOptions := Example.options_of Example.sales_view 400 100.

(** A falling pair, and labels switched off. *)
Definition falling_view : DataView :=
  {| categorical :=
       categorical
         (Example.table [PVString "Q1"; PVString "Q2"; PVString "Q3"]
            [Some 200%Q; Some 150%Q; Some (- (50))%Q]);
     objects :=
       {| obj_barColor := Some ""%string; obj_selectedBarColor := None;
          obj_showDataLabels := Some false;
          obj_labelFontSize := None; obj_show := None; obj_bubbleColor := None;
          obj_negativeBubbleColor := None; obj_fontSize := None;
          obj_firstBarIndex := None; obj_secondBarIndex := None |} |}.

Definition falling_points : list BarDataPoint :=
  [Example.point "Q1" 200 0; Example.point "Q2" 150 1; Example.point "Q3" (-50) 2].

Definition falling : VisualUpdateOptions := Example.options_of falling_view 400 300.

(** One row only. *)
Definition single_view : DataView := Example.table [PVString "Only"] [Some 7%Q].

Definition single : VisualUpdateOptions := Example.options_of single_view 400 300.

(** Two values whose quotient is no double. *)
Definition near_view : DataView :=
  Example.table [PVString "Old"; PVString "New"] [Some 2000%Q; Some 2003%Q].

Definition near_points : list BarDataPoint :=
  [Example.point "Old" 2000 0; Example.point "New" 2003 1].

Definition near : VisualUpdateOptions := Example.options_of near_view 400 300.



End Cases.

(** * Properties *)

(** ** Numbers *)

Module JSFacts.

Local Open Scope Q_scope.

Lemma le_iff (a b : Q) : JS.le a b = true <-> a <= b.
Proof. apply Qle_bool_iff. Qed.

Lemma lt_iff (a b : Q) : JS.lt a b = true <-> a < b.
Proof.
  unfold JS.lt. rewrite negb_true_iff. split; intro H.
  - apply Qnot_le_lt. intro Hle. apply Qle_bool_iff in Hle. congruence.
  - destruct (Qle_bool b a) eqn:E; [| reflexivity].
    apply Qle_bool_iff in E. exfalso. exact (Qlt_not_le _ _ H E).
Qed.

Lemma lt_false_iff (a b : Q) : JS.lt a b = false <-> b <= a.
Proof.
  unfold JS.lt. rewrite negb_false_iff. apply Qle_bool_iff.
Qed.

Lemma le_false_iff (a b : Q) : JS.le a b = false <-> b < a.
Proof.
  rewrite <- lt_iff. unfold JS.lt, JS.le.
  destruct (Qle_bool a b); simpl; split; congruence.
Qed.

Lemma strict_eq_iff (a b : Q) : JS.strict_eq a b = true <-> a == b.
Proof. apply Qeq_bool_iff. Qed.

(** [Math.round] returns an integer nearest to its argument. *)
Lemma Math_round_nearest (x : Q) :
  inject_Z (JS.Math_round x) - (1 # 2) <= x
  /\ x < inject_Z (JS.Math_round x) + (1 # 2).
Proof.
  unfold JS.Math_round.
  pose proof (Qfloor_le (x + (1 # 2))) as Hlo.
  pose proof (Qlt_floor (x + (1 # 2))) as Hhi.
  rewrite inject_Z_plus in Hhi. change (inject_Z 1) with 1 in Hhi.
  set (r := inject_Z (Qfloor (x + (1 # 2)))) in *.
  split; lra.
Qed.

(** *** Binary64 rounding *)

Lemma round_half_even_near (q : Q) :
  Qabs (inject_Z (JS.round_half_even q) - q) <= 1 # 2.
Proof.
  unfold JS.round_half_even.
  pose proof (Qfloor_le q) as Hlo. pose proof (Qlt_floor q) as Hhi.
  rewrite inject_Z_plus in Hhi. change (inject_Z 1) with 1 in Hhi.
  set (f := inject_Z (Qfloor q)) in *.
  destruct (Qcompare (q - f) (1 # 2)) eqn:E.
  - apply Qeq_alt in E.
    destruct (Z.even (Qfloor q)).
    + fold f. apply Qabs_case; intros; lra.
    + rewrite inject_Z_plus. change (inject_Z 1) with 1. fold f.
      apply Qabs_case; intros; lra.
  - apply Qlt_alt in E. fold f. apply Qabs_case; intros; lra.
  - apply Qgt_alt in E. rewrite inject_Z_plus. change (inject_Z 1) with 1. fold f.
    apply Qabs_case; intros; lra.
Qed.

Lemma two_power_positive (e : Z) : 0 < Qpower 2 e.
Proof. apply Qpower_0_lt. reflexivity. Qed.

Lemma Qabs_fraction (x : Q) : Qabs x = (Z.abs (Qnum x) # Qden x).
Proof. destruct x; reflexivity. Qed.

(** [2^(ilog2 x)] is not above the magnitude of [x]. *)
Lemma ilog2_lower (x : Q) :
  ~ x == 0 -> Qpower 2 (JS.ilog2 x) <= Qabs x.
Proof.
  intro Hx. unfold JS.ilog2.
  set (n := Z.abs (Qnum x)). set (d := Zpos (Qden x)).
  destruct (Qle_bool (Qpower 2 (Z.log2 n - Z.log2 d)) (Qabs x)) eqn:E.
  - apply Qle_bool_iff in E. exact E.
  - assert (Hn : (0 < n)%Z).
    { subst n. destruct x as [[| p | p] q]; simpl; try lia.
      exfalso. apply Hx. reflexivity. }
    assert (Hd : (0 < d)%Z) by (subst d; lia).
    pose proof (Z.log2_spec n Hn) as [Hn1 _].
    pose proof (Z.log2_spec d Hd) as [_ Hd2].
    pose proof (Z.log2_nonneg n) as Ln. pose proof (Z.log2_nonneg d) as Ld.
    replace (Z.log2 n - Z.log2 d - 1)%Z
      with (Z.log2 n + - (Z.succ (Z.log2 d)))%Z by lia.
    rewrite Qpower_plus by discriminate.
    rewrite Qpower_opp.
    change 2 with (inject_Z 2).
    rewrite <- !Zpower_Qpower by lia.
    rewrite Qabs_fraction. fold n.
    set (a := (2 ^ Z.log2 n)%Z) in *. set (b := (2 ^ Z.succ (Z.log2 d))%Z) in *.
    assert (Ha : (0 < a)%Z) by (subst a; apply Z.pow_pos_nonneg; lia).
    assert (Hb : (0 < b)%Z) by (subst b; apply Z.pow_pos_nonneg; lia).
    destruct b as [| b | b]; try lia.
    unfold Qle, Qmult, Qinv, inject_Z; simpl.
    rewrite Z.mul_1_r.
    fold d. nia.
Qed.

Lemma binary64_zero (x : Q) : x == 0 -> JS.binary64 x = 0.
Proof.
  intro H. unfold JS.binary64. apply Qeq_bool_iff in H. rewrite H. reflexivity.
Qed.

(** The rounding moves a number by at most [2^-53] of its magnitude. *)
Lemma binary64_near (x : Q) :
  Qabs (JS.binary64 x - x) <= Qabs x * (1 # 2 ^ 53).
Proof.
  unfold JS.binary64. destruct (Qeq_bool x 0) eqn:E.
  - apply Qeq_bool_iff in E. rewrite E. discriminate.
  - assert (Hx : ~ x == 0).
    { intro H. apply Qeq_bool_iff in H. congruence. }
    rewrite Qred_correct.
    pose proof (ilog2_lower Hx) as Hlow.
    set (e := JS.ilog2 x) in *.
    pose proof (two_power_positive (e - 52)) as Hu.
    assert (Hsplit : Qpower 2 e == Qpower 2 (e - 52) * inject_Z (2 ^ 52)).
    { replace e with ((e - 52) + 52)%Z at 1 by lia.
      rewrite Qpower_plus by discriminate.
      change (Qpower 2 52) with (Qpower (inject_Z 2) 52).
      rewrite <- Zpower_Qpower by lia. reflexivity. }
    set (u := Qpower 2 (e - 52)) in *.
    pose proof (round_half_even_near (x / u)) as Hr.
    set (m := inject_Z (JS.round_half_even (x / u))) in *.
    assert (Hd : m * u - x == (m - x / u) * u).
    { field. intro H. rewrite H in Hu. discriminate. }
    rewrite Hd, Qabs_Qmult, (Qabs_pos u) by lra.
    rewrite Hsplit in Hlow.
    change (inject_Z (2 ^ 52)) with (4503599627370496 # 1) in Hlow.
    change (1 # 2 ^ 53) with (1 # 9007199254740992).
    assert (Hm : Qabs (m - x / u) * u <= (1 # 2) * u).
    { apply Qmult_le_compat_r; lra. }
    lra.
Qed.

Lemma binary64_above (x : Q) :
  0 < x -> x * (1 - (1 # 2 ^ 53)) <= JS.binary64 x.
Proof.
  intro H. pose proof (binary64_near x) as Hn.
  rewrite (Qabs_pos x) in Hn by lra.
  change (1 # 2 ^ 53) with (1 # 9007199254740992) in *.
  revert Hn. apply Qabs_case; intros; lra.
Qed.

Lemma binary64_below (x : Q) :
  x < 0 -> JS.binary64 x <= x * (1 - (1 # 2 ^ 53)).
Proof.
  intro H. pose proof (binary64_near x) as Hn.
  rewrite (Qabs_neg x) in Hn by lra.
  change (1 # 2 ^ 53) with (1 # 9007199254740992) in *.
  revert Hn. apply Qabs_case; intros; lra.
Qed.

(** The rounding keeps the sign. *)
Lemma binary64_sign (x : Q) : JS.le 0 (JS.binary64 x) = JS.le 0 x.
Proof.
  destruct (JS.le 0 x) eqn:E.
  - apply le_iff in E. apply le_iff.
    destruct (Qeq_dec x 0) as [Hz | Hnz].
    + rewrite (binary64_zero Hz). lra.
    + assert (Hpos : 0 < x).
      { apply Qnot_le_lt. intro Hle. apply Hnz. lra. }
      pose proof (binary64_above Hpos) as H.
      change (1 # 2 ^ 53) with (1 # 9007199254740992) in H. lra.
  - apply le_false_iff in E. apply le_false_iff.
    pose proof (binary64_below E) as H.
    change (1 # 2 ^ 53) with (1 # 9007199254740992) in H. lra.
Qed.

(** A product with the double of [1.15] is at least as far from 0. *)
Lemma times_1_15_below (m : Q) :
  m < 0 -> JS.times m (JS.literal (115 # 100)) <= m.
Proof.
  intro H. unfold JS.times.
  set (c := JS.literal (115 # 100)).
  assert (Hc : 114 # 100 <= c) by (apply Qle_bool_iff; vm_compute; reflexivity).
  assert (Hy : m * c < 0).
  { setoid_replace (m * c) with (- ((- m) * c)) by ring.
    assert (0 < (- m) * c) by (apply Qmult_lt_0_compat; lra). lra. }
  pose proof (binary64_below Hy) as Hb.
  change (1 # 2 ^ 53) with (1 # 9007199254740992) in Hb.
  assert (Hk : 0 <= (- m) * (c * (1 - (1 # 9007199254740992)) - 1)).
  { apply Qmult_le_0_compat; lra. }
  lra.
Qed.

Lemma times_1_15_above (m : Q) :
  0 < m -> m <= JS.times m (JS.literal (115 # 100)).
Proof.
  intro H. unfold JS.times.
  set (c := JS.literal (115 # 100)).
  assert (Hc : 114 # 100 <= c) by (apply Qle_bool_iff; vm_compute; reflexivity).
  assert (Hy : 0 < m * c) by (apply Qmult_lt_0_compat; lra).
  pose proof (binary64_above Hy) as Hb.
  change (1 # 2 ^ 53) with (1 # 9007199254740992) in Hb.
  assert (Hk : 0 <= m * (c * (1 - (1 # 9007199254740992)) - 1)).
  { apply Qmult_le_0_compat; lra. }
  lra.
Qed.






End JSFacts.

(** ** The vertical domain *)

Section Extremes.

Local Open Scope Q_scope.

Local Abbreviation smaller :=
  (fun (min : option Q) (x : Q) =>
     match min with
     | None => Some x
     | Some m => if JS.lt x m then Some x else Some m
     end).

Local Abbreviation larger :=
  (fun (max : option Q) (x : Q) =>
     match max with
     | None => Some x
     | Some m => if JS.lt m x then Some x else Some m
     end).

(** The loop of [d3.min], started on a value [a], ends on [a] or on a
    later element, which nothing it has seen is below. *)
Lemma min_loop (xs : list Q) (a : Q) :
  exists m, fold_left smaller xs (Some a) = Some m
            /\ (m = a \/ In m xs)
            /\ m <= a
            /\ (forall y, In y xs -> m <= y).
Proof.
  revert a. induction xs as [| x xs IH]; intro a; simpl.
  - exists a. repeat split; auto; try lra. intros y [].
  - destruct (JS.lt x a) eqn:E.
    + apply JSFacts.lt_iff in E.
      destruct (IH x) as (m & Hm & Hin & Hle & Hall).
      exists m. repeat split; auto.
      * right. destruct Hin; auto.
      * lra.
      * intros y [<- | Hy]; auto.
    + apply JSFacts.lt_false_iff in E.
      destruct (IH a) as (m & Hm & Hin & Hle & Hall).
      exists m. repeat split; auto.
      * destruct Hin; auto.
      * intros y [<- | Hy]; auto. lra.
Qed.

Lemma max_loop (xs : list Q) (a : Q) :
  exists m, fold_left larger xs (Some a) = Some m
            /\ (m = a \/ In m xs)
            /\ a <= m
            /\ (forall y, In y xs -> y <= m).
Proof.
  revert a. induction xs as [| x xs IH]; intro a; simpl.
  - exists a. repeat split; auto; try lra. intros y [].
  - destruct (JS.lt a x) eqn:E.
    + apply JSFacts.lt_iff in E.
      destruct (IH x) as (m & Hm & Hin & Hle & Hall).
      exists m. repeat split; auto.
      * right. destruct Hin; auto.
      * lra.
      * intros y [<- | Hy]; auto.
    + apply JSFacts.lt_false_iff in E.
      destruct (IH a) as (m & Hm & Hin & Hle & Hall).
      exists m. repeat split; auto.
      * destruct Hin; auto.
      * intros y [<- | Hy]; auto. lra.
Qed.

(** [d3.min] of a list with an element is a least element of it. *)
Lemma d3_min_least (x : Q) (xs : list Q) :
  exists m, d3_min (x :: xs) = Some m
            /\ In m (x :: xs)
            /\ (forall y, In y (x :: xs) -> m <= y).
Proof.
  destruct (min_loop xs x) as (m & Hm & Hin & Hle & Hall).
  exists m. split; [exact Hm |]. split.
  - simpl. destruct Hin; auto.
  - intros y [<- | Hy]; auto.
Qed.

Lemma d3_max_greatest (x : Q) (xs : list Q) :
  exists m, d3_max (x :: xs) = Some m
            /\ In m (x :: xs)
            /\ (forall y, In y (x :: xs) -> y <= m).
Proof.
  destruct (max_loop xs x) as (m & Hm & Hin & Hle & Hall).
  exists m. split; [exact Hm |]. split.
  - simpl. destruct Hin; auto.
  - intros y [<- | Hy]; auto.
Qed.

End Extremes.

Section VerticalDomain.

Local Open Scope Q_scope.

Lemma In_value (d : BarDataPoint) (dataPoints : list BarDataPoint) :
  In d dataPoints -> In (value d) (map value dataPoints).
Proof. apply in_map. Qed.

(** The minimum [renderChart] starts from is the value of a data point
    that no data point is below. *)
Lemma minValue_least (dataPoints : list BarDataPoint) :
  dataPoints <> [] ->
  exists m, In m dataPoints
            /\ (forall d, In d dataPoints -> value m <= value d)
            /\ d3_min (map value dataPoints) = Some (value m).
Proof.
  destruct dataPoints as [| d0 rest]; [congruence |]. intros _.
  simpl map. destruct (d3_min_least (value d0) (map value rest)) as (m & Hm & Hin & Hall).
  change (value d0 :: map value rest) with (map value (d0 :: rest)) in Hin, Hall.
  apply in_map_iff in Hin. destruct Hin as (dm & <- & Hdm).
  exists dm. repeat split; auto.
  intros d Hd. apply Hall. now apply In_value.
Qed.

Lemma maxValue_greatest (dataPoints : list BarDataPoint) :
  dataPoints <> [] ->
  exists m, In m dataPoints
            /\ (forall d, In d dataPoints -> value d <= value m)
            /\ d3_max (map value dataPoints) = Some (value m).
Proof.
  destruct dataPoints as [| d0 rest]; [congruence |]. intros _.
  simpl map. destruct (d3_max_greatest (value d0) (map value rest)) as (m & Hm & Hin & Hall).
  change (value d0 :: map value rest) with (map value (d0 :: rest)) in Hin, Hall.
  apply in_map_iff in Hin. destruct Hin as (dm & <- & Hdm).
  exists dm. repeat split; auto.
  intros d Hd. apply Hall. now apply In_value.
Qed.


End VerticalDomain.

(** ** The comparison indices *)

Section Indices.

Lemma selectedIndex_clamp (dataPoints : list BarDataPoint) (setting : Q) :
  (0 < List.length dataPoints)%nat ->
  selectedIndex dataPoints setting
  = Spec.clamp 0 (Z.of_nat (List.length dataPoints) - 1) (JS.Math_round setting - 1).
Proof.
  intro H. unfold selectedIndex, rawIndex, Spec.clamp.
  destruct (Z.ltb_spec (JS.Math_round setting - 1) 0);
    destruct (Z.ltb_spec (Z.of_nat (List.length dataPoints) - 1)
                (JS.Math_round setting - 1)); lia.
Qed.

Lemma selectedIndex_range (dataPoints : list BarDataPoint) (setting : Q) :
  (0 < List.length dataPoints)%nat ->
  0 <= selectedIndex dataPoints setting <= Z.of_nat (List.length dataPoints) - 1.
Proof. intro H. unfold selectedIndex. lia. Qed.

(** With no data point both indices are 0, whatever the settings. *)
Lemma selectedIndex_empty (setting : Q) : selectedIndex [] setting = 0.
Proof. unfold selectedIndex. simpl. lia. Qed.

(** C2 (amended).  For a list of [N >= 1] data points each effective index
    is its setting rounded to a nearest integer, less one, clamped into
    [[0, N-1]], and so an integer of that range; the two are computed
    independently of each other. *)
Theorem effective_indices_clamped
    (settings : VisualFormattingSettingsModel) (dataPoints : list BarDataPoint)
    (nonempty : (0 < List.length dataPoints)%nat) :
  let N := Z.of_nat (List.length dataPoints) in
  let setting1 := firstBarIndex (varianceBubbleCard settings) in
  let setting2 := secondBarIndex (varianceBubbleCard settings) in
  ((inject_Z (JS.Math_round setting1) - (1 # 2) <= setting1
    /\ setting1 < inject_Z (JS.Math_round setting1) + (1 # 2))%Q
   /\ selectedFirst_of settings dataPoints
      = Spec.clamp 0 (N - 1) (JS.Math_round setting1 - 1)
   /\ 0 <= selectedFirst_of settings dataPoints <= N - 1)
  /\ ((inject_Z (JS.Math_round setting2) - (1 # 2) <= setting2
       /\ setting2 < inject_Z (JS.Math_round setting2) + (1 # 2))%Q
      /\ selectedSecond_of settings dataPoints
         = Spec.clamp 0 (N - 1) (JS.Math_round setting2 - 1)
      /\ 0 <= selectedSecond_of settings dataPoints <= N - 1).
Proof.
  cbv zeta. unfold selectedFirst_of, selectedSecond_of.
  repeat split;
    try apply JSFacts.Math_round_nearest;
    try (apply selectedIndex_clamp; assumption);
    try (apply selectedIndex_range; assumption).
Qed.

End Indices.

(** C2, witness: three data points, the settings -3.7 and 99.5. *)
Lemma effective_indices_clamped_witness :
  (0 <= selectedFirst_of (populateFormattingSettingsModel Example.wild_view)
          Example.sales_points <= 2)
  /\ selectedSecond_of (populateFormattingSettingsModel Example.wild_view)
       Example.sales_points
     = Spec.clamp 0 2 99.
Proof.
  destruct (effective_indices_clamped
              (populateFormattingSettingsModel Example.wild_view)
              Example.sales_points)
    as [(_ & _ & Hrange) (_ & Hclamp & _)].
  - simpl. lia.
  - split; [exact Hrange | exact Hclamp].
Defined.

(** C2, as stated, fails for the empty list: the effective index is 0,
    and 0 is not within [[0, -1]]. *)
Lemma effective_index_of_no_data :
  selectedIndex [] 1 = 0
  /\ ((0 <=? selectedIndex [] 1)
      && (selectedIndex [] 1 <=? Z.of_nat (List.length (@nil BarDataPoint)) - 1))
     = false.
Proof. split; reflexivity. Qed.

(** ** Data extraction *)

Section Extraction.

Context {runtime : Runtime}.

Local Open Scope string_scope.

Lemma map_from_rows (values : DataViewValueColumn) (cats : list PrimitiveValue) :
  forall (i : nat) (dataPoints : list BarDataPoint),
    map_from values cats i = Some dataPoints ->
    List.length dataPoints = List.length cats
    /\ forall k cat, nth_error cats k = Some cat ->
         exists v, nth_error (measure_values values) (i + k) = Some v
                   /\ nth_error dataPoints k = Some (row cat v (i + k)).
Proof.
  induction cats as [| c cats IH]; intros i dataPoints H; simpl in H.
  - inversion H; subst. split; [reflexivity |].
    intros [| k] cat Hk; discriminate.
  - unfold dataPoint in H.
    destruct (nth_error (measure_values values) i) as [v |] eqn:Ev; [| discriminate].
    destruct (map_from values cats (S i)) as [ds |] eqn:Eds; [| discriminate].
    inversion H; subst; clear H.
    destruct (IH (S i) ds Eds) as [Hlen Hrows].
    split; [simpl; congruence |].
    intros [| k] cat Hk; simpl in Hk.
    + inversion Hk; subst. exists v. rewrite Nat.add_0_r. split; [exact Ev | reflexivity].
    + destruct (Hrows k cat Hk) as (v' & Hv' & Hd).
      exists v'. rewrite Nat.add_succ_r. simpl. split; assumption.
Qed.

Lemma map_from_total (values : DataViewValueColumn) (cats : list PrimitiveValue) :
  forall i : nat,
    (i + List.length cats <= List.length (measure_values values))%nat ->
    exists dataPoints, map_from values cats i = Some dataPoints.
Proof.
  induction cats as [| c cats IH]; intros i H; simpl in *.
  - eexists; reflexivity.
  - unfold dataPoint.
    destruct (nth_error (measure_values values) i) as [v |] eqn:Ev.
    + destruct (IH (S i)) as [ds Hds]; [lia |].
      rewrite Hds. eexists; reflexivity.
    + apply nth_error_None in Ev. lia.
Qed.

(** With a value cell for every category cell, the data points are the
    rows in order: as many as rows, the [i]-th built from the [i]-th cells
    and numbered [i]. *)
Lemma dataPoints_of_rows (categories : DataViewCategoryColumn) (values : DataViewValueColumn) :
  (List.length (category_values categories) <= List.length (measure_values values))%nat ->
  exists dataPoints,
    dataPoints_of categories values = Some dataPoints
    /\ List.length dataPoints = List.length (category_values categories)
    /\ forall i cat, nth_error (category_values categories) i = Some cat ->
         exists v, nth_error (measure_values values) i = Some v
                   /\ nth_error dataPoints i = Some (row cat v i).
Proof.
  intro H. unfold dataPoints_of.
  destruct (map_from_total values (category_values categories) 0) as [ds Hds]; [lia |].
  exists ds. split; [exact Hds |].
  destruct (map_from_rows _ _ _ Hds) as [Hlen Hrows].
  split; [exact Hlen |]. exact Hrows.
Qed.

(** C10.  A row whose category cell is falsy gets the empty string as its
    category, whatever the string form of the cell; a truthy cell is
    converted with [toString]. *)
Theorem falsy_category_is_empty
    (categories : DataViewCategoryColumn) (values : DataViewValueColumn)
    (cells : (List.length (category_values categories)
                <= List.length (measure_values values))%nat) :
  exists dataPoints,
    dataPoints_of categories values = Some dataPoints
    /\ forall i cat, nth_error (category_values categories) i = Some cat ->
         exists d, nth_error dataPoints i = Some d
                   /\ (truthy cat = false -> category d = "")
                   /\ (truthy cat = true -> category d = PrimitiveValue_toString cat).
Proof.
  destruct (dataPoints_of_rows categories values cells) as (ds & Hds & _ & Hrows).
  exists ds. split; [exact Hds |].
  intros i cat Hi. destruct (Hrows i cat Hi) as (v & _ & Hd).
  exists (row cat v i). split; [exact Hd |].
  unfold row; simpl. split; intros ->; reflexivity.
Qed.

(** Zero, [false] and the empty string are falsy; the first two have a
    string form that is not empty. *)
Lemma falsy_cells :
  truthy (PVNumber 0) = false
  /\ truthy (PVBoolean false) = false
  /\ truthy (PVString "") = false
  /\ PrimitiveValue_toString (PVBoolean false) = "false"
  /\ PrimitiveValue_toString (PVNumber 0) = "0".
Proof. repeat split. Qed.

End Extraction.

(** C10, witness: a zero, a [false], an empty string and a 7. *)
Lemma falsy_category_is_empty_witness :
  exists dataPoints,
    dataPoints_of (runtime := Example.runtime)
      {| category_values := [PVNumber 0; PVBoolean false; PVString ""; PVNumber 7] |}
      {| measure_values := [Some 1%Q; Some 2%Q; None; Some 4%Q] |}
    = Some dataPoints
    /\ map category dataPoints = [""; ""; ""; "7"]%string.
Proof.
  destruct (@falsy_category_is_empty Example.runtime
              {| category_values := [PVNumber 0; PVBoolean false; PVString ""; PVNumber 7] |}
              {| measure_values := [Some 1%Q; Some 2%Q; None; Some 4%Q] |})
    as (ds & Hds & _).
  - simpl. lia.
  - exists ds. split; [exact Hds |].
    vm_compute in Hds. inversion Hds. reflexivity.
Defined.

(** C3, at a failing input: the categories [false] and 0 have the string
    forms "false" and "0", and the data points get the empty string. *)
Lemma category_of_false_and_zero :
  dataPoints_of (runtime := Example.runtime)
    {| category_values := [PVBoolean false; PVNumber 0] |}
    {| measure_values := [Some 5%Q; None] |}
  = Some [ {| category := ""; value := 5; index := 0 |};
           {| category := ""; value := 0; index := 1 |} ]
  /\ map (Spec.category (runtime := Example.runtime)) [PVBoolean false; PVNumber 0]
     = ["false"; "0"]%string.
Proof. split; reflexivity. Qed.

(** ** What renderChart draws *)

Section Drawing.

Context {runtime : Runtime}.

Local Open Scope string_scope.
Local Open Scope list_scope.
Local Open Scope Z_scope.

Variables (settings : VisualFormattingSettingsModel) (innerWidth innerHeight : Q).

Local Abbreviation bubble := (bubble_of settings innerWidth innerHeight).

(** [renderVarianceBubble] leaves the children there are and appends
    nothing or one group. *)
Lemma renderVarianceBubble_appends (group : list Element)
    (dataPoints : list BarDataPoint) (firstIdx secondIdx : Z)
    (xScale : ScaleBand) (yScale : ScaleLinear) (bubbleSettings : VarianceBubbleCard) :
  renderVarianceBubble group dataPoints firstIdx secondIdx xScale yScale bubbleSettings
  = group
      ++ renderVarianceBubble [] dataPoints firstIdx secondIdx xScale yScale bubbleSettings.
Proof.
  unfold renderVarianceBubble.
  destruct (at_index dataPoints firstIdx) as [firstBar |]; [| now rewrite app_nil_r].
  destruct (at_index dataPoints secondIdx) as [secondBar |]; [| now rewrite app_nil_r].
  destruct (JS.strict_eq (value firstBar) 0); [now rewrite app_nil_r |].
  reflexivity.
Qed.

Lemma bars_not_bubble (xScale : ScaleBand) (yScale : ScaleLinear) (i j : Z)
    (dataPoints : list BarDataPoint) :
  filter is_bubble_element
    (flat_map descendants (map (barElement settings xScale yScale i j) dataPoints)) = [].
Proof.
  induction dataPoints as [| d rest IH]; [reflexivity |].
  cbn [map flat_map]. rewrite filter_app, IH. reflexivity.
Qed.

Lemma labels_not_bubble (size : Q) (xScale : ScaleBand) (yScale : ScaleLinear)
    (dataPoints : list BarDataPoint) :
  filter is_bubble_element
    (flat_map descendants (map (barLabel size xScale yScale) dataPoints)) = [].
Proof.
  induction dataPoints as [| d rest IH]; [reflexivity |].
  cbn [map flat_map]. rewrite filter_app, IH. reflexivity.
Qed.

Lemma bars_are_bars (xScale : ScaleBand) (yScale : ScaleLinear) (i j : Z)
    (dataPoints : list BarDataPoint) :
  selectAll "bar" (map (barElement settings xScale yScale i j) dataPoints)
  = map (barElement settings xScale yScale i j) dataPoints.
Proof.
  unfold selectAll.
  induction dataPoints as [| d rest IH]; [reflexivity |].
  cbn [map flat_map]. rewrite filter_app, IH. reflexivity.
Qed.

Lemma labels_not_bars (size : Q) (xScale : ScaleBand) (yScale : ScaleLinear)
    (dataPoints : list BarDataPoint) :
  selectAll "bar" (map (barLabel size xScale yScale) dataPoints) = [].
Proof.
  unfold selectAll.
  induction dataPoints as [| d rest IH]; [reflexivity |].
  cbn [map flat_map]. rewrite filter_app, IH. reflexivity.
Qed.

Lemma bubble_not_bars (dataPoints : list BarDataPoint) (firstIdx secondIdx : Z)
    (xScale : ScaleBand) (yScale : ScaleLinear) (bubbleSettings : VarianceBubbleCard) :
  selectAll "bar"
    (renderVarianceBubble [] dataPoints firstIdx secondIdx xScale yScale bubbleSettings)
  = [].
Proof.
  unfold renderVarianceBubble.
  destruct (at_index dataPoints firstIdx) as [firstBar |]; [| reflexivity].
  destruct (at_index dataPoints secondIdx) as [secondBar |]; [| reflexivity].
  destruct (JS.strict_eq (value firstBar) 0); reflexivity.
Qed.

Lemma chartElements_parts (dataPoints : list BarDataPoint) :
  exists xAxis yAxis labels,
    chartElements settings innerWidth innerHeight dataPoints
    = [xAxis; yAxis]
        ++ map (barElement settings (xScale_of dataPoints innerWidth)
                  (yScale_of dataPoints innerHeight)
                  (selectedFirst_of settings dataPoints)
                  (selectedSecond_of settings dataPoints)) dataPoints
        ++ labels ++ bubble dataPoints
    /\ filter is_bubble_element (flat_map descendants [xAxis; yAxis]) = []
    /\ selectAll "bar" [xAxis; yAxis] = []
    /\ filter is_bubble_element (flat_map descendants labels) = []
    /\ selectAll "bar" labels = [].
Proof.
  unfold chartElements. do 3 eexists. split; [reflexivity |].
  split; [reflexivity |]. split; [reflexivity |].
  destruct (showDataLabels (barSettingsCard settings)).
  - split; [apply labels_not_bubble | apply labels_not_bars].
  - split; reflexivity.
Qed.

Lemma selectAll_app (c : string) (l1 l2 : list Element) :
  selectAll c (l1 ++ l2) = selectAll c l1 ++ selectAll c l2.
Proof. unfold selectAll. now rewrite flat_map_app, filter_app. Qed.

(** The bubble elements of a rendering are those of its bubble. *)
Lemma bubble_of_chart (dataPoints : list BarDataPoint) :
  filter is_bubble_element
    (flat_map descendants (chartElements settings innerWidth innerHeight dataPoints))
  = filter is_bubble_element (flat_map descendants (bubble dataPoints)).
Proof.
  destruct (chartElements_parts dataPoints)
    as (xAxis & yAxis & labels & -> & Haxes & _ & Hlabels & _).
  rewrite !flat_map_app, !filter_app, Haxes, bars_not_bubble, Hlabels.
  reflexivity.
Qed.

(** The bars of a rendering are one [rect] per data point, in order. *)
Lemma bars_of_chart (dataPoints : list BarDataPoint) :
  selectAll "bar" (chartElements settings innerWidth innerHeight dataPoints)
  = map (barElement settings (xScale_of dataPoints innerWidth)
           (yScale_of dataPoints innerHeight)
           (selectedFirst_of settings dataPoints)
           (selectedSecond_of settings dataPoints)) dataPoints.
Proof.
  destruct (chartElements_parts dataPoints)
    as (xAxis & yAxis & labels & -> & _ & Haxes & _ & Hlabels).
  rewrite !selectAll_app, Haxes, bars_are_bars, Hlabels.
  assert (Hb : selectAll "bar" (bubble dataPoints) = []).
  { unfold bubble_of.
    destruct (show (varianceBubbleCard settings) && _); [| reflexivity].
    apply bubble_not_bars. }
  rewrite Hb. simpl. now rewrite app_nil_r.
Qed.

(** Equal effective indices: no bubble. *)
Lemma bubble_equal_indices (dataPoints : list BarDataPoint) :
  selectedFirst_of settings dataPoints = selectedSecond_of settings dataPoints ->
  bubble dataPoints = [].
Proof.
  intro H. unfold bubble_of. rewrite H, Z.eqb_refl, andb_false_r. reflexivity.
Qed.

(** A first bar that is missing or of value 0, or a missing second bar:
    [renderVarianceBubble] returns at its guard and the group is as it was. *)
Lemma renderVarianceBubble_guard (group : list Element)
    (dataPoints : list BarDataPoint) (firstIdx secondIdx : Z)
    (xScale : ScaleBand) (yScale : ScaleLinear) (bubbleSettings : VarianceBubbleCard) :
  at_index dataPoints firstIdx = None
  \/ at_index dataPoints secondIdx = None
  \/ (exists firstBar, at_index dataPoints firstIdx = Some firstBar
                       /\ (value firstBar == 0)%Q) ->
  renderVarianceBubble group dataPoints firstIdx secondIdx xScale yScale bubbleSettings
  = group.
Proof.
  unfold renderVarianceBubble. intros [H | [H | (firstBar & H & Hzero)]].
  - rewrite H. reflexivity.
  - rewrite H. destruct (at_index dataPoints firstIdx); reflexivity.
  - rewrite H. destruct (at_index dataPoints secondIdx); [| reflexivity].
    apply JSFacts.strict_eq_iff in Hzero. rewrite Hzero. reflexivity.
Qed.

Lemma bubble_guard (dataPoints : list BarDataPoint) :
  at_index dataPoints (selectedFirst_of settings dataPoints) = None
  \/ at_index dataPoints (selectedSecond_of settings dataPoints) = None
  \/ (exists firstBar,
        at_index dataPoints (selectedFirst_of settings dataPoints) = Some firstBar
        /\ (value firstBar == 0)%Q) ->
  bubble dataPoints = [].
Proof.
  intro H. unfold bubble_of.
  destruct (show (varianceBubbleCard settings) && _); [| reflexivity].
  now apply renderVarianceBubble_guard.
Qed.

Lemma bars_not_labels (xScale : ScaleBand) (yScale : ScaleLinear) (i j : Z)
    (dataPoints : list BarDataPoint) :
  selectAll "bar-label" (map (barElement settings xScale yScale i j) dataPoints) = [].
Proof.
  unfold selectAll.
  induction dataPoints as [| d rest IH]; [reflexivity |].
  cbn [map flat_map]. rewrite filter_app, IH. reflexivity.
Qed.

(** A join that finds no element of its class lets every datum enter. *)
Lemma enter_append_fresh {A : Type} (c : string) (make : A -> Element)
    (data : list A) (children : list Element) :
  selectAll c children = [] ->
  enter_append c make data children = children ++ map make data.
Proof. intro H. unfold enter_append. rewrite H. reflexivity. Qed.

(** Started on the emptied group, the steps of [renderChart] leave the
    axes, all the bars, all the labels and the bubble: nothing is there
    for the joins to match, so every data point enters. *)
Lemma renderChart_draws (self : Visual) (options : VisualUpdateOptions)
    (dataPoints : list BarDataPoint) :
  formattingSettings self = Some settings ->
  drawable options = true ->
  renderChart self options dataPoints = Some (rendered options settings dataPoints).
Proof.
  intros Hsettings Harea. unfold renderChart.
  unfold drawable, innerWidth_of, innerHeight_of in Harea.
  apply negb_true_iff in Harea. rewrite Harea, Hsettings.
  unfold rendered. do 2 f_equal.
  unfold chartElements, bubble_of, selectedFirst_of, selectedSecond_of,
    innerWidth_of, innerHeight_of.
  unfold remove_all, append_child. cbn [app].
  set (axes := Node "g" ["x-axis"] _ _ _ _ :: _ :: nil).
  set (make := barElement settings _ _ _ _).
  rewrite (enter_append_fresh "bar" make dataPoints axes) by reflexivity.
  assert (Hnone : selectAll "bar-label" (axes ++ map make dataPoints) = []).
  { unfold selectAll. rewrite flat_map_app, filter_app.
    fold (selectAll "bar-label" (map make dataPoints)).
    unfold make. rewrite bars_not_labels. reflexivity. }
  destruct (showDataLabels (barSettingsCard settings)).
  - rewrite (enter_append_fresh _ _ _ _ Hnone).
    destruct (show (varianceBubbleCard settings) && _).
    + rewrite renderVarianceBubble_appends, <- !app_assoc. reflexivity.
    + rewrite app_nil_r, <- !app_assoc. reflexivity.
  - destruct (show (varianceBubbleCard settings) && _).
    + rewrite renderVarianceBubble_appends, <- !app_assoc. reflexivity.
    + rewrite app_nil_r. reflexivity.
Qed.

End Drawing.

(** ** update *)

Section Update.

Context {runtime : Runtime}.

Local Open Scope string_scope.
Local Open Scope list_scope.
Local Open Scope Z_scope.

(** With both columns read, [update] renders, or clears when the inner
    area is empty; the settings are those of the data view. *)
Lemma update_reads (self : Visual) (options : VisualUpdateOptions)
    (dataView : DataView) (dataPoints : list BarDataPoint) :
  reads options dataView dataPoints ->
  update self options
  = Some (if drawable options
          then rendered options (populateFormattingSettingsModel dataView) dataPoints
          else cleared self (Some (populateFormattingSettingsModel dataView))).
Proof.
  intros (table & cats & vals & Hview & Htable & Hcats & Hvals & Hpoints).
  unfold update. rewrite Hview, Htable, Hcats, Hvals, Hpoints.
  destruct (drawable options) eqn:Harea.
  - now apply renderChart_draws.
  - unfold renderChart. unfold drawable, innerWidth_of, innerHeight_of in Harea.
    apply negb_false_iff in Harea. rewrite Harea. reflexivity.
Qed.

(** Without a usable result set [update] only clears. *)
Lemma update_unusable (self : Visual) (options : VisualUpdateOptions) :
  unusable options ->
  update self options = Some (cleared self (retained_of self options)).
Proof.
  intros [Hview | dataView Hview Htable | dataView table Hview Htable Hcol
          | dataView table Hview Htable Hcol];
    unfold update, retained_of; rewrite Hview; try rewrite Htable; try rewrite Hcol;
    try reflexivity.
  destruct (first (categories table)); reflexivity.
Qed.

Lemma retained_of_cleared (self : Visual) (options : VisualUpdateOptions) :
  retained_of (cleared self (retained_of self options)) options
  = retained_of self options.
Proof.
  unfold retained_of. destruct (first (dataViews options)) as [dataView |]; [| reflexivity].
  destruct (categorical dataView); reflexivity.
Qed.

(** Every aligned call is of one of the two kinds. *)
Lemma update_paths (options : VisualUpdateOptions) :
  aligned options ->
  unusable options \/ exists dataView dataPoints, reads options dataView dataPoints.
Proof.
  intro Haligned.
  destruct (first (dataViews options)) as [dataView |] eqn:Hview;
    [| left; now apply no_dataView].
  destruct (categorical dataView) as [table |] eqn:Htable;
    [| left; now apply no_categorical with dataView].
  destruct (first (categories table)) as [cats |] eqn:Hcats;
    [| left; now apply no_category_column with dataView table].
  destruct (first (values table)) as [vals |] eqn:Hvals;
    [| left; now apply no_value_column with dataView table].
  right.
  destruct (dataPoints_of_rows cats vals) as (dataPoints & Hpoints & _).
  { now apply (Haligned dataView table). }
  exists dataView, dataPoints. now exists table, cats, vals.
Qed.

(** C8.  When the result set is absent, has no categorical part, or lacks
    the category or the value column, [update] returns normally with an
    empty chart group and the [svg] size and the transform untouched. *)
Theorem unusable_result_set_clears (self : Visual) (options : VisualUpdateOptions)
    (missing : unusable options) :
  exists self',
    update self options = Some self'
    /\ chartGroup self' = []
    /\ drawn self' = []
    /\ svg_width self' = svg_width self
    /\ svg_height self' = svg_height self
    /\ chartGroup_transform self' = chartGroup_transform self.
Proof.
  exists (cleared self (retained_of self options)).
  split; [now apply update_unusable |]. repeat split.
Qed.

(** C9.  A second [update] with the same arguments changes nothing, and
    what an [update] draws does not depend on what was drawn before. *)
Theorem update_idempotent (self : Visual) (options : VisualUpdateOptions)
    (cells : aligned options) :
  exists self1,
    update self options = Some self1
    /\ update self1 options = Some self1
    /\ forall other, exists other1,
         update other options = Some other1
         /\ chartGroup other1 = chartGroup self1.
Proof.
  destruct (update_paths cells) as [Hmissing | (dataView & dataPoints & Hreads)].
  - exists (cleared self (retained_of self options)).
    split; [now apply update_unusable |]. split.
    + rewrite (update_unusable _ Hmissing), retained_of_cleared. reflexivity.
    + intro other. eexists. split; [now apply update_unusable | reflexivity].
  - exists (if drawable options
            then rendered options (populateFormattingSettingsModel dataView) dataPoints
            else cleared self (Some (populateFormattingSettingsModel dataView))).
    split; [exact (update_reads self Hreads) |]. split.
    + rewrite (update_reads _ Hreads). destruct (drawable options); reflexivity.
    + intro other. eexists. split; [exact (update_reads other Hreads) |].
      destruct (drawable options); reflexivity.
Qed.

(** C5.  When the two effective indices are equal, nothing of the
    variance bubble is drawn, whatever the toggle says. *)
Theorem equal_indices_no_bubble (self : Visual) (options : VisualUpdateOptions)
    (dataView : DataView) (dataPoints : list BarDataPoint)
    (both : reads options dataView dataPoints)
    (same : selectedFirst_of (populateFormattingSettingsModel dataView) dataPoints
            = selectedSecond_of (populateFormattingSettingsModel dataView) dataPoints) :
  exists self', update self options = Some self' /\ bubble_elements self' = [].
Proof.
  eexists. split; [exact (update_reads self both) |].
  destruct (drawable options); [| reflexivity].
  unfold bubble_elements, drawn, rendered; simpl chartGroup.
  rewrite bubble_of_chart, bubble_equal_indices by assumption. reflexivity.
Qed.

(** C6.  When the first compared bar has the value 0, or a compared bar
    is missing, [update] returns normally, nothing of the variance bubble
    is drawn, and the bars are drawn as ever: one per data point. *)
Theorem guarded_bubble_is_skipped (self : Visual) (options : VisualUpdateOptions)
    (dataView : DataView) (dataPoints : list BarDataPoint)
    (both : reads options dataView dataPoints)
    (guard :
       let settings := populateFormattingSettingsModel dataView in
       at_index dataPoints (selectedFirst_of settings dataPoints) = None
       \/ at_index dataPoints (selectedSecond_of settings dataPoints) = None
       \/ exists firstBar,
            at_index dataPoints (selectedFirst_of settings dataPoints) = Some firstBar
            /\ (value firstBar == 0)%Q) :
  let settings := populateFormattingSettingsModel dataView in
  exists self',
    update self options = Some self'
    /\ bubble_elements self' = []
    /\ (drawable options = true ->
        bars self'
        = map (barElement settings
                 (xScale_of dataPoints (innerWidth_of options))
                 (yScale_of dataPoints (innerHeight_of options))
                 (selectedFirst_of settings dataPoints)
                 (selectedSecond_of settings dataPoints)) dataPoints).
Proof.
  cbv zeta in *. eexists. split; [exact (update_reads self both) |].
  destruct (drawable options); [| split; [reflexivity | discriminate]].
  unfold bubble_elements, bars, drawn, rendered; simpl chartGroup. split.
  - rewrite bubble_of_chart, bubble_guard by assumption. reflexivity.
  - intros _. apply bars_of_chart.
Qed.

End Update.

Section BarFill.

Context {runtime : Runtime}.

Local Open Scope string_scope.
Local Open Scope list_scope.
Local Open Scope Z_scope.

(** The test of the [fill] callback, as a proposition. *)
Lemma barFill_selected (settings : VisualFormattingSettingsModel)
    (selectedFirst selectedSecond : Z) (d : BarDataPoint) :
  let selected :=
    (index d = selectedFirst \/ index d = selectedSecond)
    /\ show (varianceBubbleCard settings) = true in
  (selected ->
   barFill settings selectedFirst selectedSecond d = selectedColor_of settings)
  /\ (~ selected ->
      barFill settings selectedFirst selectedSecond d = defaultBarColor_of settings).
Proof.
  cbv zeta. unfold barFill, selectedColor_of, defaultBarColor_of.
  destruct (Z.eqb_spec (index d) selectedFirst) as [E1 | E1];
    destruct (Z.eqb_spec (index d) selectedSecond) as [E2 | E2];
    destruct (show (varianceBubbleCard settings)); simpl;
    split; intro H; try reflexivity; try (exfalso; tauto);
    try (destruct H as [[? | ?] ?]; congruence);
    try (destruct H as [_ ?]; discriminate).
Qed.

(** C4.  In a rendering there is one bar per data point, in order, and
    the bar of a data point is filled with the selected colour when its
    index is one of the two effective indices and the bubble toggle is on,
    and with the default colour otherwise; with two different colours, the
    fill is the selected one exactly in that case. *)
Theorem bar_fill (self : Visual) (options : VisualUpdateOptions)
    (dataView : DataView) (dataPoints : list BarDataPoint)
    (both : reads options dataView dataPoints)
    (area : drawable options = true) :
  let settings := populateFormattingSettingsModel dataView in
  exists self',
    update self options = Some self'
    /\ List.length (bars self') = List.length dataPoints
    /\ forall i d, nth_error dataPoints i = Some d ->
         exists bar,
           nth_error (bars self') i = Some bar
           /\ let selected :=
                (index d = selectedFirst_of settings dataPoints
                 \/ index d = selectedSecond_of settings dataPoints)
                /\ show (varianceBubbleCard settings) = true in
              (selected -> attr "fill" bar = Some (AStr (selectedColor_of settings)))
              /\ (~ selected ->
                  attr "fill" bar = Some (AStr (defaultBarColor_of settings)))
              /\ (selectedColor_of settings <> defaultBarColor_of settings ->
                  (attr "fill" bar = Some (AStr (selectedColor_of settings))
                   <-> selected)).
Proof.
  cbv zeta. eexists. split; [exact (update_reads self both) |].
  rewrite area. unfold bars, rendered; simpl chartGroup. rewrite bars_of_chart.
  split; [apply length_map |].
  intros i d Hd. eexists. split; [apply map_nth_error; exact Hd |].
  change (attr "fill" (barElement ?s ?x ?y ?a ?b d))
    with (Some (AStr (barFill s a b d))).
  destruct (barFill_selected (populateFormattingSettingsModel dataView)
              (selectedFirst_of (populateFormattingSettingsModel dataView) dataPoints)
              (selectedSecond_of (populateFormattingSettingsModel dataView) dataPoints) d)
    as [Hyes Hno].
  split; [| split].
  - intro H. now rewrite (Hyes H).
  - intro H. now rewrite (Hno H).
  - intro Hcolours. split.
    + intro Hfill.
      destruct (Z.eq_dec (index d)
                  (selectedFirst_of (populateFormattingSettingsModel dataView) dataPoints))
        as [E1 | E1];
        destruct (Z.eq_dec (index d)
                    (selectedSecond_of (populateFormattingSettingsModel dataView) dataPoints))
          as [E2 | E2];
        destruct (show (varianceBubbleCard (populateFormattingSettingsModel dataView)))
          eqn:Eshow;
        try (split; [tauto | reflexivity]);
        exfalso; apply Hcolours;
        rewrite Hno in Hfill by (intros [[? | ?] ?]; congruence);
        congruence.
    + intro H. now rewrite (Hyes H).
Qed.

End BarFill.

(** ** Decimal digits and toFixed *)

Section Digits.

Local Open Scope Z_scope.









End Digits.

Section ToFixed.

Local Open Scope Q_scope.

Variable other : Q -> string.







End ToFixed.

(** ** The variance label *)

Section VarianceLabel.

Context {runtime : Runtime}.

Local Open Scope string_scope.
Local Open Scope list_scope.



Lemma filter_implies {A : Type} (p q : A -> bool) (l : list A) :
  (forall x, p x = true -> q x = true) ->
  filter p (filter q l) = filter p l.
Proof.
  intro H. induction l as [| x l IH]; simpl; [reflexivity |].
  destruct (q x) eqn:Eq; simpl.
  - now rewrite IH.
  - destruct (p x) eqn:Ep; [| exact IH].
    apply H in Ep. congruence.
Qed.

Lemma label_is_bubble_element (e : Element) :
  has_class "variance-label" e = true -> is_bubble_element e = true.
Proof.
  intro H. unfold is_bubble_element. rewrite H. apply orb_true_r.
Qed.

(** The variance labels of a rendering are those of its bubble. *)
Lemma variance_labels_of_chart (settings : VisualFormattingSettingsModel)
    (innerWidth innerHeight : Q) (dataPoints : list BarDataPoint) :
  variance_labels (chartElements settings innerWidth innerHeight dataPoints)
  = variance_labels (bubble_of settings innerWidth innerHeight dataPoints).
Proof.
  unfold variance_labels.
  rewrite <- (filter_implies _ _ _ label_is_bubble_element), bubble_of_chart.
  rewrite (filter_implies _ _ _ label_is_bubble_element). reflexivity.
Qed.

(** Past its guard, [renderVarianceBubble] draws one label: the text made
    of the percentage. *)
Lemma renderVarianceBubble_label (dataPoints : list BarDataPoint) (firstIdx secondIdx : Z)
    (xScale : ScaleBand) (yScale : ScaleLinear) (bubbleSettings : VarianceBubbleCard)
    (firstBar secondBar : BarDataPoint) :
  at_index dataPoints firstIdx = Some firstBar ->
  at_index dataPoints secondIdx = Some secondBar ->
  ~ (value firstBar == 0)%Q ->
  variance_labels
    (renderVarianceBubble [] dataPoints firstIdx secondIdx xScale yScale bubbleSettings)
  = [Some (varianceLabel (variancePct_of firstBar secondBar))].
Proof.
  intros Hfirst Hsecond Hnonzero. unfold renderVarianceBubble.
  rewrite Hfirst, Hsecond.
  destruct (JS.strict_eq (value firstBar) 0) eqn:E.
  - apply JSFacts.strict_eq_iff in E. contradiction.
  - reflexivity.
Qed.


End VarianceLabel.

(** ** The theorems at work on examples *)

Section Examples.

#[local] Existing Instance Example.runtime.

Local Open Scope string_scope.
Local Open Scope list_scope.

Lemma sales_reads : reads Example.sales Example.sales_view Example.sales_points.
Proof. do 3 eexists. repeat split; reflexivity. Qed.

Lemma from_zero_reads :
  reads Example.from_zero Example.from_zero_view Example.from_zero_points.
Proof. do 3 eexists. repeat split; reflexivity. Qed.

Lemma same_bar_reads :
  reads Example.same_bar Example.same_bar_view Example.sales_points.
Proof. do 3 eexists. repeat split; reflexivity. Qed.


(** [toFixed(1)] at a tie, on a negative number, and from [10^21] on. *)
Example toFixed_tie : JS.toFixed nondouble_toString (5 # 4) 1 = "1.3".
Proof. reflexivity. Qed.

Example toFixed_negative : JS.toFixed nondouble_toString (- (5 # 4)) 1 = "-1.3".
Proof. reflexivity. Qed.

Example toFixed_large :
  JS.toFixed nondouble_toString (JS.literal (inject_Z (123 * 10 ^ 21))) 1 = "1.23e+23".
Proof. vm_compute. reflexivity. Qed.

(** The other two labels the specification quotes. *)
Example label_100_50 :
  varianceLabel (variancePct_of (Example.point "a" 100 0) (Example.point "b" 50 1))
  = "-50.0%".
Proof. vm_compute. reflexivity. Qed.

Example label_minus100_minus50 :
  varianceLabel (variancePct_of (Example.point "a" (-100) 0) (Example.point "b" (-50) 1))
  = "+50.0%".
Proof. vm_compute. reflexivity. Qed.

(** A percentage that rounds to zero from below keeps its minus sign. *)
Example label_small_negative :
  varianceLabel (variancePct_of (Example.point "a" 10000 0) (Example.point "b" 9999 1))
  = "-0.0%".
Proof. vm_compute. reflexivity. Qed.

(** 2000 against 2003: the quotient [3 / 2000] is no double, and the
    percentage the doubles give is just below [0.15]. *)
Example label_2000_2003 :
  varianceLabel (variancePct_of (Example.point "a" 2000 0) (Example.point "b" 2003 1))
  = "+0.1%"
  /\ Number_toString
       (variancePct_of (Example.point "a" 2000 0) (Example.point "b" 2003 1))
     = "0.15"
  /\ (variancePct_of (Example.point "a" 2000 0) (Example.point "b" 2003 1) < 15 # 100)%Q.
Proof. repeat split; vm_compute; reflexivity. Qed.


(** C4, witness: with the default settings the first bar of the example
    is one of the compared two and gets the selected colour, the third is
    not and gets the default colour. *)
Lemma bar_fill_witness :
  exists self',
    update constructor Example.sales = Some self'
    /\ (exists bar, nth_error (bars self') 0 = Some bar
                    /\ attr "fill" bar = Some (AStr "#ED7D31"))
    /\ (exists bar, nth_error (bars self') 2 = Some bar
                    /\ attr "fill" bar = Some (AStr "#4472C4")).
Proof.
  destruct (@bar_fill Example.runtime constructor Example.sales
              Example.sales_view Example.sales_points sales_reads eq_refl)
    as (self' & Hupdate & _ & Hbars).
  exists self'. split; [exact Hupdate |]. split.
  - destruct (Hbars 0%nat (Example.point "North" 100 0) eq_refl)
      as (bar & Hbar & Hselected & _ & _).
    exists bar. split; [exact Hbar |].
    apply Hselected. split; [left |]; reflexivity.
  - destruct (Hbars 2%nat (Example.point "West" 0 2) eq_refl)
      as (bar & Hbar & _ & Hother & _).
    exists bar. split; [exact Hbar |].
    apply Hother. intros [[H | H] _]; discriminate H.
Defined.

(** C5, witness: both settings at 2. *)
Lemma equal_indices_no_bubble_witness :
  exists self',
    update constructor Example.same_bar = Some self' /\ bubble_elements self' = [].
Proof.
  apply (@equal_indices_no_bubble Example.runtime constructor Example.same_bar
           Example.same_bar_view Example.sales_points same_bar_reads).
  reflexivity.
Defined.

(** C6, witness: a first bar of value 0; the two bars are drawn. *)
Lemma guarded_bubble_is_skipped_witness :
  exists self',
    update constructor Example.from_zero = Some self'
    /\ bubble_elements self' = []
    /\ List.length (bars self') = 2%nat.
Proof.
  destruct (@guarded_bubble_is_skipped Example.runtime constructor Example.from_zero
              Example.from_zero_view Example.from_zero_points from_zero_reads)
    as (self' & Hupdate & Hbubble & Hbars).
  - right. right. exists (Example.point "North" 0 0). split; reflexivity.
  - exists self'. split; [exact Hupdate |]. split; [exact Hbubble |].
    rewrite (Hbars eq_refl). reflexivity.
Defined.


(** The two ends as the doubles give them: [1.15] is no double, and
    neither product is the exact one. *)
Example domain_of_minus100_200 :
  let domain :=
    linear_domain
      (yScale_of
         [Example.point "a" (-100) 0; Example.point "b" 200 1; Example.point "c" 5 2]
         200) in
  Number_toString (fst domain) = "-114.99999999999999"
  /\ Number_toString (snd domain) = "229.99999999999997"
  /\ (- (115) < fst domain)%Q
  /\ (snd domain < 230)%Q.
Proof. repeat split; vm_compute; reflexivity. Qed.

(** C8, witness: no result set, after a first rendering. *)
Lemma unusable_result_set_clears_witness :
  exists self',
    update (rendered Example.sales (populateFormattingSettingsModel Example.sales_view)
              Example.sales_points)
      Example.no_result
    = Some self'
    /\ chartGroup self' = []
    /\ svg_width self' = Some 400%Q.
Proof.
  destruct (@unusable_result_set_clears Example.runtime
              (rendered Example.sales (populateFormattingSettingsModel Example.sales_view)
                 Example.sales_points)
              Example.no_result)
    as (self' & Hupdate & Hgroup & _ & Hwidth & _).
  - apply no_dataView. reflexivity.
  - exists self'. split; [exact Hupdate |]. split; [exact Hgroup | exact Hwidth].
Defined.

Lemma sales_aligned : aligned Example.sales.
Proof.
  intros dataView table cats vals Hview Htable Hcats Hvals.
  inversion Hview; subst. inversion Htable; subst.
  inversion Hcats; subst. inversion Hvals; subst. simpl. lia.
Qed.

(** C9, witness: the example, updated twice. *)
Lemma update_idempotent_witness :
  exists self1,
    update constructor Example.sales = Some self1
    /\ update self1 Example.sales = Some self1.
Proof.
  destruct (@update_idempotent Example.runtime constructor Example.sales sales_aligned)
    as (self1 & Hfirst & Hsecond & _).
  exists self1. split; [exact Hfirst | exact Hsecond].
Defined.

End Examples.

(** * Further properties of the code *)

(** ** The data points *)

Section Rows.

Context {runtime : Runtime}.

Lemma at_index_of_nat (dataPoints : list BarDataPoint) (i : nat) :
  at_index dataPoints (Z.of_nat i) = nth_error dataPoints i.
Proof.
  unfold at_index. destruct (Z.ltb_spec (Z.of_nat i) 0); [lia |].
  now rewrite Nat2Z.id.
Qed.

(** X1.  With a value cell for every category cell, [update] derives one
    data point per row, in row order: the point at position [i] carries
    the index [i] (so looking a point up by its own index finds it), the
    number of the value cell, and 0 for a [null] cell. *)
Theorem data_points_follow_rows
    (categories : DataViewCategoryColumn) (values : DataViewValueColumn)
    (cells : (List.length (category_values categories)
                <= List.length (measure_values values))%nat) :
  exists dataPoints,
    dataPoints_of categories values = Some dataPoints
    /\ List.length dataPoints = List.length (category_values categories)
    /\ forall i d, nth_error dataPoints i = Some d ->
         index d = Z.of_nat i
         /\ at_index dataPoints (index d) = Some d
         /\ (nth_error (measure_values values) i = Some None -> value d = 0%Q)
         /\ (forall x, nth_error (measure_values values) i = Some (Some x) ->
             value d = x).
Proof.
  destruct (dataPoints_of_rows categories values cells)
    as (dataPoints & Hpoints & Hlen & Hrows).
  exists dataPoints. split; [exact Hpoints |]. split; [exact Hlen |].
  intros i d Hd.
  assert (Hi : (i < List.length (category_values categories))%nat).
  { rewrite <- Hlen. apply nth_error_Some. congruence. }
  destruct (nth_error (category_values categories) i) as [cat |] eqn:Hcat;
    [| apply nth_error_None in Hcat; lia].
  destruct (Hrows i cat Hcat) as (v & Hv & Hrow).
  assert (d = row cat v i) by congruence. subst d.
  split; [reflexivity |]. split.
  - simpl index. rewrite at_index_of_nat. exact Hrow.
  - split.
    + intro H. rewrite Hv in H. inversion H; subst. reflexivity.
    + intros x H. rewrite Hv in H. inversion H; subst. reflexivity.
Qed.

End Rows.

(** X1, witness: three rows, the last with a [null] value. *)
Lemma data_points_follow_rows_witness :
  exists dataPoints,
    dataPoints_of (runtime := Example.runtime)
      {| category_values := [PVString "North"; PVString "South"; PVString "West"] |}
      {| measure_values := [Some 100%Q; Some 150%Q; None] |}
    = Some dataPoints
    /\ List.length dataPoints = 3%nat.
Proof.
  destruct (@data_points_follow_rows Example.runtime
              {| category_values := [PVString "North"; PVString "South"; PVString "West"] |}
              {| measure_values := [Some 100%Q; Some 150%Q; None] |})
    as (dataPoints & Hpoints & Hlen & _).
  - simpl. lia.
  - exists dataPoints. split; [exact Hpoints | exact Hlen].
Defined.

(** ** The viewport *)

Section Viewport.

Context {runtime : Runtime}.

Local Open Scope string_scope.
Local Open Scope Q_scope.

(** The margins leave an inner area when the viewport is wider than 90
    and higher than 100. *)
Lemma drawable_iff (options : VisualUpdateOptions) :
  drawable options = true
  <-> 90 < width (viewport options) /\ 100 < height (viewport options).
Proof.
  unfold drawable, innerWidth_of, innerHeight_of,
    margin_left, margin_right, margin_top, margin_bottom.
  rewrite negb_true_iff, orb_false_iff, !JSFacts.le_false_iff.
  split; intros [H1 H2]; split; lra.
Qed.

Lemma not_drawable_iff (options : VisualUpdateOptions) :
  drawable options = false
  <-> width (viewport options) <= 90 \/ height (viewport options) <= 100.
Proof.
  unfold drawable, innerWidth_of, innerHeight_of,
    margin_left, margin_right, margin_top, margin_bottom.
  rewrite negb_false_iff, orb_true_iff, !JSFacts.le_iff.
  split; intros [H | H]; (left; lra) || (right; lra).
Qed.

(** X2.  With both columns read: in a viewport wider than 90 and higher
    than 100 the [svg] takes the size of the viewport, the chart group is
    moved to (60, 40) and gets children; in any other viewport the group is
    emptied and the size and the transform stay as they were. *)
Theorem viewport_decides_rendering (self : Visual) (options : VisualUpdateOptions)
    (dataView : DataView) (dataPoints : list BarDataPoint)
    (both : reads options dataView dataPoints) :
  exists self',
    update self options = Some self'
    /\ (90 < width (viewport options) /\ 100 < height (viewport options) ->
        svg_width self' = Some (width (viewport options))
        /\ svg_height self' = Some (height (viewport options))
        /\ chartGroup_transform self' = Some "translate(60,40)"
        /\ (2 <= List.length (chartGroup self'))%nat)
    /\ (width (viewport options) <= 90 \/ height (viewport options) <= 100 ->
        chartGroup self' = []
        /\ svg_width self' = svg_width self
        /\ svg_height self' = svg_height self
        /\ chartGroup_transform self' = chartGroup_transform self).
Proof.
  eexists. split; [exact (update_reads self both) |]. split.
  - intro H. apply drawable_iff in H. rewrite H.
    repeat split. unfold rendered, chartElements; simpl. lia.
  - intro H. apply not_drawable_iff in H. rewrite H. repeat split.
Qed.

End Viewport.

(** X2, witness: the sales table at 400 by 300, then at 400 by 100. *)
Lemma viewport_decides_rendering_witness :
  (exists self',
     update (runtime := Example.runtime) constructor Example.sales = Some self'
     /\ svg_width self' = Some 400%Q
     /\ chartGroup_transform self' = Some "translate(60,40)"%string)
  /\ (exists self',
        update (runtime := Example.runtime) constructor Cases.flat = Some self'
        /\ chartGroup self' = []
        /\ svg_width self' = None).
Proof.
  split.
  - destruct (@viewport_decides_rendering Example.runtime constructor Example.sales
                Example.sales_view Example.sales_points sales_reads)
      as (self' & Hupdate & Hdrawn & _).
    exists self'. split; [exact Hupdate |].
    destruct Hdrawn as (Hwidth & _ & Htransform & _); [split; reflexivity |].
    split; [exact Hwidth | exact Htransform].
  - destruct (@viewport_decides_rendering Example.runtime constructor Cases.flat
                Example.sales_view Example.sales_points)
      as (self' & Hupdate & _ & Hcleared).
    + do 3 eexists. repeat split; reflexivity.
    + exists self'. split; [exact Hupdate |].
      destruct Hcleared as (Hgroup & Hwidth & _); [right; discriminate |].
      split; [exact Hgroup | exact Hwidth].
Defined.

(** ** The retained settings *)

Section Retained.

Context {runtime : Runtime}.

Lemma update_retains (self : Visual) (options : VisualUpdateOptions) :
  aligned options ->
  exists self',
    update self options = Some self'
    /\ formattingSettings self' = retained_of self options.
Proof.
  intro Hcells.
  destruct (update_paths Hcells) as [Hmissing | (dataView & dataPoints & Hreads)].
  - eexists. split; [exact (update_unusable self Hmissing) | reflexivity].
  - eexists. split; [exact (update_reads self Hreads) |].
    destruct Hreads as (table & cats & vals & Hview & Htable & _).
    unfold retained_of. rewrite Hview, Htable.
    destruct (drawable options); reflexivity.
Qed.

(** X3.  After an [update] whose first data view has a categorical part,
    [getFormattingModel] is built from the settings populated from that
    data view, also when a column is missing or the viewport is too small
    and nothing is drawn; after an [update] without such a data view it is
    built from what the object retained before. *)
Theorem formatting_model_follows_update (self : Visual) (options : VisualUpdateOptions)
    (cells : aligned options) :
  exists self',
    update self options = Some self'
    /\ (forall dataView table,
          first (dataViews options) = Some dataView ->
          categorical dataView = Some table ->
          forall (M : Type) (build : option VisualFormattingSettingsModel -> M),
            getFormattingModel build self'
            = build (Some (populateFormattingSettingsModel dataView)))
    /\ ((first (dataViews options) = None
         \/ exists dataView, first (dataViews options) = Some dataView
                             /\ categorical dataView = None) ->
        forall (M : Type) (build : option VisualFormattingSettingsModel -> M),
          getFormattingModel build self' = getFormattingModel build self).
Proof.
  destruct (update_retains self cells) as (self' & Hupdate & Hretained).
  exists self'. split; [exact Hupdate |].
  unfold getFormattingModel. rewrite Hretained. unfold retained_of. split.
  - intros dataView table Hview Htable M build. now rewrite Hview, Htable.
  - intros [Hview | (dataView & Hview & Htable)] M build.
    + now rewrite Hview.
    + now rewrite Hview, Htable.
Qed.

End Retained.

(** X3, witness: the sales table in a viewport without inner height. *)
Lemma formatting_model_follows_update_witness :
  exists self',
    update (runtime := Example.runtime) constructor Cases.flat = Some self'
    /\ chartGroup self' = []
    /\ getFormattingModel (fun settings => settings) self'
       = Some (populateFormattingSettingsModel Example.sales_view).
Proof.
  destruct (@formatting_model_follows_update Example.runtime constructor Cases.flat)
    as (self' & Hupdate & Hbuilt & _).
  - intros dataView table cats vals Hview Htable Hcats Hvals.
    inversion Hview; subst. inversion Htable; subst.
    inversion Hcats; subst. inversion Hvals; subst. simpl. lia.
  - exists self'. split; [exact Hupdate |]. split.
    + vm_compute in Hupdate. inversion Hupdate. reflexivity.
    + exact (Hbuilt Example.sales_view _ eq_refl eq_refl _ (fun settings => settings)).
Defined.

(** ** The vertical domain holds every bar *)

Section DomainHolds.

Local Open Scope Q_scope.

(** X4.  The domain the vertical scale is built with always reaches from
    0 or below to above 0, and every value lies within it. *)
Theorem vertical_domain_holds_values (dataPoints : list BarDataPoint) (innerHeight : Q) :
  let domain := linear_domain (yScale_of dataPoints innerHeight) in
  fst domain <= 0
  /\ 0 < snd domain
  /\ forall d, In d dataPoints -> fst domain <= value d /\ value d <= snd domain.
Proof.
  cbv zeta. simpl. unfold yMin_of, yMax_of.
  destruct dataPoints as [| d0 rest] eqn:Epoints.
  - simpl. repeat split; try lra. all: intros d [].
  - rewrite <- Epoints.
    assert (Hne : dataPoints <> []) by (rewrite Epoints; discriminate).
    destruct (minValue_least Hne) as (lo & _ & Hlo & ->).
    destruct (maxValue_greatest Hne) as (hi & _ & Hhi & ->).
    simpl or_default.
    destruct (JS.lt (value lo) 0) eqn:Elo; destruct (JS.lt 0 (value hi)) eqn:Ehi;
      try apply JSFacts.lt_iff in Elo; try apply JSFacts.lt_false_iff in Elo;
      try apply JSFacts.lt_iff in Ehi; try apply JSFacts.lt_false_iff in Ehi;
      try pose proof (JSFacts.times_1_15_below Elo) as Hbelow;
      try pose proof (JSFacts.times_1_15_above Ehi) as Habove;
      (split; [lra |]); (split; [lra |]);
      intros d Hd; specialize (Hlo d Hd); specialize (Hhi d Hd); split; lra.
Qed.

End DomainHolds.

(** ** Index settings *)

Section Settings.

Lemma Math_round_integer (k : Z) : JS.Math_round (inject_Z k) = k.
Proof.
  unfold JS.Math_round.
  pose proof (Qfloor_le (inject_Z k + (1 # 2))) as Hlo.
  pose proof (Qlt_floor (inject_Z k + (1 # 2))) as Hhi.
  set (r := Qfloor (inject_Z k + (1 # 2))) in *.
  rewrite inject_Z_plus in Hhi. change (inject_Z 1) with 1%Q in Hhi.
  assert (H1 : (inject_Z r <= inject_Z k + (1 # 2))%Q) by exact Hlo.
  assert (Hle : (inject_Z r < inject_Z (k + 1))%Q).
  { rewrite inject_Z_plus. change (inject_Z 1) with 1%Q. lra. }
  assert (Hge : (inject_Z (k - 1) < inject_Z r)%Q).
  { unfold Z.sub. rewrite inject_Z_plus, inject_Z_opp.
    change (inject_Z 1) with 1%Q. lra. }
  rewrite <- Zlt_Qlt in Hle, Hge. lia.
Qed.

Lemma Math_round_monotone (x y : Q) :
  (x <= y)%Q -> JS.Math_round x <= JS.Math_round y.
Proof.
  intro H. unfold JS.Math_round. apply Qfloor_resp_le. lra.
Qed.

Lemma selectedIndex_whole (dataPoints : list BarDataPoint) (k : Z) :
  1 <= k <= Z.of_nat (List.length dataPoints) ->
  selectedIndex dataPoints (inject_Z k) = k - 1.
Proof.
  intro H. unfold selectedIndex, rawIndex. rewrite Math_round_integer. lia.
Qed.

(** X5.  A whole setting [k] between 1 and the number of bars selects the
    [k]-th bar: the effective index is [k - 1] and the bar found there is
    the one at position [k - 1] of the list. *)
Theorem whole_setting_selects_bar (dataPoints : list BarDataPoint) (k : Z)
    (inside : 1 <= k <= Z.of_nat (List.length dataPoints)) :
  selectedIndex dataPoints (inject_Z k) = k - 1
  /\ exists d, at_index dataPoints (selectedIndex dataPoints (inject_Z k)) = Some d
               /\ nth_error dataPoints (Z.to_nat (k - 1)) = Some d.
Proof.
  pose proof (selectedIndex_whole dataPoints inside) as Hsel.
  split; [exact Hsel |]. rewrite Hsel. unfold at_index.
  destruct (Z.ltb_spec (k - 1) 0); [lia |].
  destruct (nth_error dataPoints (Z.to_nat (k - 1))) as [d |] eqn:E.
  - exists d. split; reflexivity.
  - apply nth_error_None in E. lia.
Qed.

(** X6.  The effective index grows with the setting, is 0 for every
    setting below 1.5, and is the last index for every setting from
    [N - 0.5] on. *)
Theorem index_setting_saturates (dataPoints : list BarDataPoint)
    (nonempty : (0 < List.length dataPoints)%nat) :
  let N := Z.of_nat (List.length dataPoints) in
  (forall s t : Q, (s <= t)%Q -> selectedIndex dataPoints s <= selectedIndex dataPoints t)
  /\ (forall s : Q, (s < 3 # 2)%Q -> selectedIndex dataPoints s = 0)
  /\ (forall s : Q, (inject_Z N - (1 # 2) <= s)%Q -> selectedIndex dataPoints s = N - 1).
Proof.
  cbv zeta. unfold selectedIndex, rawIndex. split; [| split].
  - intros s t H. pose proof (Math_round_monotone H). lia.
  - intros s H.
    assert (Hlt : (inject_Z (JS.Math_round s) < inject_Z 2)%Q).
    { unfold JS.Math_round. pose proof (Qfloor_le (s + (1 # 2))).
      change (inject_Z 2) with 2%Q. lra. }
    rewrite <- Zlt_Qlt in Hlt. lia.
  - intros s H.
    assert (Hm : Qfloor (inject_Z (Z.of_nat (List.length dataPoints)))
                 <= Qfloor (s + (1 # 2))).
    { apply Qfloor_resp_le. lra. }
    rewrite Qfloor_Z in Hm. unfold JS.Math_round. lia.
Qed.

End Settings.

(** X5, witness: the setting 2 on three bars. *)
Lemma whole_setting_selects_bar_witness :
  selectedIndex Example.sales_points (inject_Z 2) = 1
  /\ at_index Example.sales_points (selectedIndex Example.sales_points (inject_Z 2))
     = Some (Example.point "South" 150 1).
Proof.
  destruct (@whole_setting_selects_bar Example.sales_points 2)
    as (Hsel & d & Hat & Hnth).
  - simpl. lia.
  - split; [exact Hsel |]. rewrite Hat. rewrite <- Hnth. reflexivity.
Defined.

(** X6, witness: three bars, the settings 1.4 and 2.5. *)
Lemma index_setting_saturates_witness :
  selectedIndex Example.sales_points (14 # 10) = 0
  /\ selectedIndex Example.sales_points (25 # 10) = 2.
Proof.
  destruct (@index_setting_saturates Example.sales_points) as (_ & Hlow & Hhigh).
  - simpl. lia.
  - split; [apply Hlow; reflexivity | apply Hhigh; discriminate].
Defined.

(** ** The parts of a rendering *)

Section Parts.

Context {runtime : Runtime}.

Variables (settings : VisualFormattingSettingsModel) (innerWidth innerHeight : Q).

Local Open Scope string_scope.
Local Open Scope list_scope.
Local Open Scope Z_scope.

Local Abbreviation chart := (chartElements settings innerWidth innerHeight).
Local Abbreviation bubble := (bubble_of settings innerWidth innerHeight).
Local Abbreviation bar_of dataPoints :=
  (barElement settings (xScale_of dataPoints innerWidth)
     (yScale_of dataPoints innerHeight)
     (selectedFirst_of settings dataPoints) (selectedSecond_of settings dataPoints)).
Local Abbreviation label_of dataPoints :=
  (barLabel (or_default (labelFontSize (barSettingsCard settings)) 11%Q)
     (xScale_of dataPoints innerWidth) (yScale_of dataPoints innerHeight)).

(** A class of the bubble is found in the bubble only. *)
Lemma selectAll_bubble_class (c : string) (dataPoints : list BarDataPoint) :
  (forall e, has_class c e = true -> is_bubble_element e = true) ->
  selectAll c (chart dataPoints) = selectAll c (bubble dataPoints).
Proof.
  intro H. unfold selectAll.
  rewrite <- (filter_implies _ _ _ H), bubble_of_chart.
  now rewrite (filter_implies _ _ _ H).
Qed.

Lemma at_index_selected (dataPoints : list BarDataPoint) (setting : Q) :
  (0 < List.length dataPoints)%nat ->
  exists d, at_index dataPoints (selectedIndex dataPoints setting) = Some d.
Proof.
  intro H. pose proof (selectedIndex_range dataPoints setting H) as Hrange.
  unfold at_index. destruct (Z.ltb_spec (selectedIndex dataPoints setting) 0); [lia |].
  destruct (nth_error dataPoints (Z.to_nat (selectedIndex dataPoints setting))) eqn:E.
  - eexists; reflexivity.
  - apply nth_error_None in E. lia.
Qed.


(** When the three tests pass, both compared bars are there and the
    bubble is what [renderVarianceBubble] draws past its guard. *)
Lemma bubble_when_due (dataPoints : list BarDataPoint) :
  bubble_due settings dataPoints = true ->
  show (varianceBubbleCard settings) = true
  /\ selectedFirst_of settings dataPoints <> selectedSecond_of settings dataPoints
  /\ exists firstBar secondBar,
       at_index dataPoints (selectedFirst_of settings dataPoints) = Some firstBar
       /\ at_index dataPoints (selectedSecond_of settings dataPoints) = Some secondBar
       /\ JS.strict_eq (value firstBar) 0 = false
       /\ bubble dataPoints
          = renderVarianceBubble [] dataPoints
              (selectedFirst_of settings dataPoints)
              (selectedSecond_of settings dataPoints)
              (xScale_of dataPoints innerWidth) (yScale_of dataPoints innerHeight)
              (varianceBubbleCard settings).
Proof.
  unfold bubble_due. rewrite !andb_true_iff, negb_true_iff, Z.eqb_neq.
  intros [[Hshow Hdiffer] Hfirst].
  destruct (at_index dataPoints (selectedFirst_of settings dataPoints))
    as [firstBar |] eqn:E1; [| discriminate].
  apply negb_true_iff in Hfirst.
  assert (Hlen : (0 < List.length dataPoints)%nat).
  { destruct dataPoints; [| simpl; lia].
    unfold at_index in E1. destruct (_ <? 0); [discriminate |].
    destruct (Z.to_nat _); discriminate. }
  destruct (at_index_selected dataPoints
              (secondBarIndex (varianceBubbleCard settings)) Hlen) as (secondBar & E2).
  split; [exact Hshow |]. split; [exact Hdiffer |].
  exists firstBar, secondBar. repeat split; try assumption.
  unfold bubble_of. rewrite Hshow. apply Z.eqb_neq in Hdiffer. rewrite Hdiffer.
  reflexivity.
Qed.

Lemma bubble_when_not_due (dataPoints : list BarDataPoint) :
  bubble_due settings dataPoints = false -> bubble dataPoints = [].
Proof.
  unfold bubble_due, bubble_of. intro H.
  destruct (show (varianceBubbleCard settings)); [| reflexivity].
  destruct (selectedFirst_of settings dataPoints =? selectedSecond_of settings dataPoints);
    [reflexivity |].
  simpl in H. simpl andb. cbv iota.
  apply renderVarianceBubble_guard.
  destruct (at_index dataPoints (selectedFirst_of settings dataPoints)) as [firstBar |];
    [| now left].
  right. right. exists firstBar. split; [reflexivity |].
  apply negb_false_iff in H. now apply JSFacts.strict_eq_iff.
Qed.

Lemma labels_are_labels (size : Q) (xScale : ScaleBand) (yScale : ScaleLinear)
    (dataPoints : list BarDataPoint) :
  selectAll "bar-label" (map (barLabel size xScale yScale) dataPoints)
  = map (barLabel size xScale yScale) dataPoints.
Proof.
  unfold selectAll.
  induction dataPoints as [| d rest IH]; [reflexivity |].
  cbn [map flat_map]. rewrite filter_app, IH. reflexivity.
Qed.

Lemma bubble_not_labels (dataPoints : list BarDataPoint) :
  selectAll "bar-label" (bubble dataPoints) = [].
Proof.
  unfold bubble_of. destruct (_ && _); [| reflexivity].
  unfold renderVarianceBubble.
  destruct (at_index dataPoints _) as [firstBar |]; [| reflexivity].
  destruct (at_index dataPoints _) as [secondBar |]; [| reflexivity].
  destruct (JS.strict_eq (value firstBar) 0); reflexivity.
Qed.

(** The data labels of a rendering: one per data point when they are
    switched on, none otherwise. *)
Lemma labels_of_chart (dataPoints : list BarDataPoint) :
  selectAll "bar-label" (chart dataPoints)
  = if showDataLabels (barSettingsCard settings)
    then map (label_of dataPoints) dataPoints
    else [].
Proof.
  unfold chartElements. cbv zeta. rewrite !selectAll_app.
  rewrite bars_not_labels, bubble_not_labels, app_nil_r.
  destruct (showDataLabels (barSettingsCard settings)).
  - rewrite labels_are_labels. reflexivity.
  - reflexivity.
Qed.

(** The bubble group of a rendering is the bubble itself. *)
Lemma group_of_chart (dataPoints : list BarDataPoint) :
  selectAll "variance-bubble-group" (chart dataPoints) = bubble dataPoints.
Proof.
  rewrite selectAll_bubble_class.
  - destruct (bubble_due settings dataPoints) eqn:Edue.
    + destruct (bubble_when_due dataPoints Edue)
        as (_ & _ & firstBar & secondBar & E1 & E2 & Enz & ->).
      unfold renderVarianceBubble. rewrite E1, E2, Enz. reflexivity.
    + rewrite (bubble_when_not_due dataPoints Edue). reflexivity.
  - intros e H. unfold is_bubble_element. now rewrite H.
Qed.

(** The children of the chart group, in document order: the two axes,
    the bars, the labels, the bubble. *)
Lemma chart_in_order (dataPoints : list BarDataPoint) :
  chart dataPoints
  = firstn 2 (chart dataPoints)
      ++ selectAll "bar" (chart dataPoints)
      ++ selectAll "bar-label" (chart dataPoints)
      ++ selectAll "variance-bubble-group" (chart dataPoints).
Proof.
  rewrite bars_of_chart, labels_of_chart, group_of_chart.
  unfold chartElements. cbv zeta. reflexivity.
Qed.

End Parts.

(** ** What an update draws *)

Section Drawn.

Context {runtime : Runtime}.

Local Open Scope string_scope.
Local Open Scope list_scope.
Local Open Scope Z_scope.


(** X8.  In a rendering the bubble is drawn exactly when the toggle is on,
    the two effective indices differ and the first compared bar has a
    value other than 0: then the last child of the chart group is the
    bubble group, and the bubble elements are this group with its two
    connector lines, its circle and its label, in this order; otherwise
    there is no bubble element. *)
Theorem bubble_drawn_when_due (self : Visual) (options : VisualUpdateOptions)
    (dataView : DataView) (dataPoints : list BarDataPoint)
    (both : reads options dataView dataPoints)
    (area : drawable options = true) :
  let settings := populateFormattingSettingsModel dataView in
  exists self',
    update self options = Some self'
    /\ (bubble_due settings dataPoints = false -> bubble_elements self' = [])
    /\ (bubble_due settings dataPoints = true ->
        exists others group,
          chartGroup self' = others ++ [group]
          /\ bubble_elements self' = descendants group
          /\ map tag_of (descendants group)
             = [Some "g"; Some "line"; Some "line"; Some "circle"; Some "text"]
          /\ map classes_of (descendants group)
             = [["variance-bubble-group"]; ["variance-connector"];
                ["variance-connector"]; ["variance-bubble"]; ["variance-label"]]).
Proof.
  cbv zeta. eexists. split; [exact (update_reads self both) |].
  rewrite area. unfold bubble_elements, drawn, rendered; simpl chartGroup.
  rewrite bubble_of_chart. split.
  - intro Hdue. rewrite (bubble_when_not_due _ _ _ _ Hdue). reflexivity.
  - intro Hdue.
    destruct (@bubble_when_due _ _ (innerWidth_of options) (innerHeight_of options)
                _ Hdue)
      as (_ & _ & firstBar & secondBar & E1 & E2 & Enz & Hbubble).
    unfold chartElements. cbv zeta. rewrite Hbubble.
    unfold renderVarianceBubble. rewrite E1, E2, Enz. cbv zeta.
    unfold append_child. rewrite app_nil_l, !app_assoc.
    do 2 eexists. split; [reflexivity |]. repeat split.
Qed.

(** X9.  With fewer than two data points both effective indices are 0 and
    no bubble element is drawn, whatever the settings. *)
Theorem no_bubble_below_two_rows (self : Visual) (options : VisualUpdateOptions)
    (dataView : DataView) (dataPoints : list BarDataPoint)
    (both : reads options dataView dataPoints)
    (few : (List.length dataPoints <= 1)%nat) :
  let settings := populateFormattingSettingsModel dataView in
  selectedFirst_of settings dataPoints = 0
  /\ selectedSecond_of settings dataPoints = 0
  /\ exists self', update self options = Some self' /\ bubble_elements self' = [].
Proof.
  cbv zeta.
  assert (Hzero : forall setting, selectedIndex dataPoints setting = 0).
  { intro setting. unfold selectedIndex. lia. }
  unfold selectedFirst_of, selectedSecond_of. rewrite !Hzero.
  split; [reflexivity |]. split; [reflexivity |].
  eexists. split; [exact (update_reads self both) |].
  destruct (drawable options); [| reflexivity].
  unfold bubble_elements, drawn, rendered; simpl chartGroup.
  rewrite bubble_of_chart, bubble_equal_indices; [reflexivity |].
  unfold selectedFirst_of, selectedSecond_of. now rewrite !Hzero.
Qed.

(** X10.  In a rendering the children of the chart group are, in this
    order: the group of the horizontal axis, moved down to the position of
    the value 0, the group of the vertical axis, the bars, the data labels
    and the bubble group; there are as many bars as data points. *)
Theorem children_in_document_order (self : Visual) (options : VisualUpdateOptions)
    (dataView : DataView) (dataPoints : list BarDataPoint)
    (both : reads options dataView dataPoints)
    (area : drawable options = true) :
  exists self' xAxis yAxis,
    update self options = Some self'
    /\ chartGroup self'
       = [xAxis; yAxis] ++ bars self' ++ labels self'
           ++ selectAll "variance-bubble-group" (chartGroup self')
    /\ classes_of xAxis = ["x-axis"]
    /\ attr_str "transform" xAxis
       = Some ("translate(0,"
                 ++ Number_toString
                      (scaleLinear_call
                         (yScale_of dataPoints (innerHeight_of options)) 0)
                 ++ ")")%string
    /\ classes_of yAxis = ["y-axis"]
    /\ List.length (bars self') = List.length dataPoints.
Proof.
  do 3 eexists. split; [exact (update_reads self both) |].
  rewrite area. unfold bars, labels, rendered; simpl chartGroup.
  split.
  - rewrite chart_in_order at 1. unfold chartElements at 1. cbv zeta. reflexivity.
  - rewrite bars_of_chart, length_map. repeat split.
Qed.

End Drawn.

(** ** The look of the bubble *)

Section BubbleLook.

Context {runtime : Runtime}.

Local Open Scope string_scope.
Local Open Scope list_scope.
Local Open Scope Q_scope.

Lemma Qabs_positive (x : Q) : ~ x == 0 -> 0 < Qabs x.
Proof.
  intro H. destruct (Qlt_le_dec 0 x) as [Hpos | Hneg].
  - rewrite Qabs_pos; lra.
  - rewrite Qabs_neg by exact Hneg.
    destruct (Qeq_dec x 0) as [E | E]; [contradiction |].
    assert (x < 0) by (apply Qle_lteq in Hneg; destruct Hneg; [assumption | contradiction]).
    lra.
Qed.

(** The variance is not negative exactly when the second value is not
    below the first. *)
Lemma le_0_scaled (a c : Q) : 0 < c -> JS.le 0 (a * c) = JS.le 0 a.
Proof.
  intro Hc. destruct (JS.le 0 a) eqn:E.
  - apply JSFacts.le_iff in E. apply JSFacts.le_iff.
    apply Qmult_le_0_compat; lra.
  - apply JSFacts.le_false_iff in E. apply JSFacts.le_false_iff.
    assert (Hpos : 0 < (- a) * c) by (apply Qmult_lt_0_compat; lra).
    assert (Heq : a * c == - ((- a) * c)) by ring.
    rewrite Heq. lra.
Qed.

Lemma variance_sign (firstBar secondBar : BarDataPoint) :
  ~ value firstBar == 0 ->
  JS.le 0 (variancePct_of firstBar secondBar) = JS.le (value firstBar) (value secondBar).
Proof.
  intro Hnz. unfold variancePct_of, JS.Math_abs, JS.times, JS.over, JS.minus.
  pose proof (Qinv_lt_0_compat _ (Qabs_positive Hnz)) as Hinv.
  rewrite JSFacts.binary64_sign, le_0_scaled by reflexivity.
  unfold Qdiv. rewrite JSFacts.binary64_sign, le_0_scaled by exact Hinv.
  rewrite JSFacts.binary64_sign.
  set (f := value firstBar). set (s := value secondBar).
  destruct (JS.le f s) eqn:E.
  - apply JSFacts.le_iff in E. apply JSFacts.le_iff. lra.
  - apply JSFacts.le_false_iff in E. apply JSFacts.le_false_iff. lra.
Qed.






(** A label that starts with a minus sign. *)
Lemma negative_label (pct : Q) :
  JS.le 0 pct = false ->
  exists rest, varianceLabel pct = String "-" rest.
Proof.
  intro H. unfold varianceLabel. rewrite H. unfold JS.toFixed.
  assert (Hlt : JS.lt pct 0 = true).
  { apply JSFacts.lt_iff. now apply JSFacts.le_false_iff. }
  rewrite Hlt. eexists. reflexivity.
Qed.

Lemma nonnegative_label (pct : Q) :
  JS.le 0 pct = true ->
  exists rest, varianceLabel pct = String "+" rest.
Proof.
  intro H. unfold varianceLabel. rewrite H. eexists. reflexivity.
Qed.

(** X11.  When the bubble is drawn, its colour follows the comparison of
    the two values: with a second value that is not below the first, the
    circle is filled and both connectors are stroked with the positive
    colour and the label starts with a plus sign; with a second value
    below the first, they have the negative colour and the label starts
    with a minus sign.  An empty colour setting falls back to "#70AD47"
    and "#FF0000". *)
Theorem bubble_colour_follows_sign (self : Visual) (options : VisualUpdateOptions)
    (dataView : DataView) (dataPoints : list BarDataPoint)
    (firstBar secondBar : BarDataPoint)
    (both : reads options dataView dataPoints)
    (area : drawable options = true)
    (due : bubble_due (populateFormattingSettingsModel dataView) dataPoints = true)
    (compared1 :
       at_index dataPoints
         (selectedFirst_of (populateFormattingSettingsModel dataView) dataPoints)
       = Some firstBar)
    (compared2 :
       at_index dataPoints
         (selectedSecond_of (populateFormattingSettingsModel dataView) dataPoints)
       = Some secondBar) :
  let card := varianceBubbleCard (populateFormattingSettingsModel dataView) in
  let rising := JS.le (value firstBar) (value secondBar) in
  let colour :=
    if rising then or_else (bubbleColor card) "#70AD47"
    else or_else (negativeBubbleColor card) "#FF0000" in
  exists self',
    update self options = Some self'
    /\ map (attr_str "fill") (selectAll "variance-bubble" (chartGroup self'))
       = [Some colour]
    /\ map (attr_str "stroke") (selectAll "variance-connector" (chartGroup self'))
       = [Some colour; Some colour]
    /\ exists rest,
         variance_labels (chartGroup self')
         = [Some (String (if rising then "+" else "-")%char rest)].
Proof.
  cbv zeta. eexists. split; [exact (update_reads self both) |].
  rewrite area. unfold rendered; simpl chartGroup.
  destruct (@bubble_when_due _ _ (innerWidth_of options) (innerHeight_of options)
              _ due)
    as (_ & _ & firstBar' & secondBar' & E1 & E2 & Enz & Hbubble).
  assert (firstBar' = firstBar) by congruence.
  assert (secondBar' = secondBar) by congruence. subst.
  assert (Hnz : ~ value firstBar == 0).
  { intro H. apply JSFacts.strict_eq_iff in H. congruence. }
  rewrite variance_labels_of_chart.
  rewrite !selectAll_bubble_class
    by (intros e H; unfold is_bubble_element; rewrite H;
        repeat rewrite orb_true_r; reflexivity).
  rewrite Hbubble.
  rewrite (renderVarianceBubble_label _ _ _ _ _ _ E1 E2 Hnz).
  unfold renderVarianceBubble. rewrite E1, E2, Enz. cbv zeta.
  rewrite (@variance_sign firstBar secondBar Hnz).
  split; [reflexivity |]. split; [reflexivity |].
  destruct (JS.le (value firstBar) (value secondBar)) eqn:E.
  - destruct (nonnegative_label (variancePct_of firstBar secondBar)) as (rest & ->).
    + now rewrite variance_sign.
    + now exists rest.
  - destruct (negative_label (variancePct_of firstBar secondBar)) as (rest & ->).
    + now rewrite variance_sign.
    + now exists rest.
Qed.

End BubbleLook.

(** ** Geometry *)

Section Geometry.

Context {runtime : Runtime}.

Local Open Scope string_scope.
Local Open Scope list_scope.
Local Open Scope Q_scope.



End Geometry.

(** ** Defaults, colours, and one update after another *)

Section Defaults.

Context {runtime : Runtime}.

Local Open Scope string_scope.
Local Open Scope list_scope.
Local Open Scope Z_scope.

Lemma populate_unset (dataView : DataView) :
  objects dataView = unset ->
  populateFormattingSettingsModel dataView
  = {| barSettingsCard := default_barSettingsCard;
       varianceBubbleCard := default_varianceBubbleCard |}.
Proof.
  intro H. unfold populateFormattingSettingsModel. rewrite H. reflexivity.
Qed.

(** X14.  A data view that persists no property is drawn with the values
    the settings model is built with: the bubble is on and compares the
    first two bars (the settings 1 and 2), so that its label is the one of
    their variance; these two bars are filled "#ED7D31" while every other
    bar is filled "#4472C4", and every bar has a data label. *)
Theorem defaults_compare_first_two (self : Visual) (options : VisualUpdateOptions)
    (dataView : DataView) (dataPoints : list BarDataPoint) (d0 d1 : BarDataPoint)
    (both : reads options dataView dataPoints)
    (area : drawable options = true)
    (plain : objects dataView = unset)
    (bar0 : nth_error dataPoints 0 = Some d0)
    (bar1 : nth_error dataPoints 1 = Some d1)
    (nonzero : ~ (value d0 == 0)%Q) :
  exists self',
    update self options = Some self'
    /\ variance_labels (chartGroup self')
       = [Some (varianceLabel (variancePct_of d0 d1))]
    /\ map (attr_str "fill") (bars self')
       = map (fun d => Some (if (index d =? 0) || (index d =? 1)
                             then "#ED7D31" else "#4472C4")) dataPoints
    /\ List.length (labels self') = List.length dataPoints.
Proof.
  assert (Hlen : 2 <= Z.of_nat (List.length dataPoints)).
  { destruct dataPoints as [| a [| b rest]]; try discriminate. simpl List.length. lia. }
  pose proof (populate_unset dataView plain) as Hsettings.
  assert (Hfirst : selectedFirst_of (populateFormattingSettingsModel dataView) dataPoints = 0).
  { rewrite Hsettings. unfold selectedFirst_of. simpl firstBarIndex.
    change 1%Q with (inject_Z 1). rewrite selectedIndex_whole; lia. }
  assert (Hsecond : selectedSecond_of (populateFormattingSettingsModel dataView) dataPoints = 1).
  { rewrite Hsettings. unfold selectedSecond_of. simpl secondBarIndex.
    change 2%Q with (inject_Z 2). rewrite selectedIndex_whole; lia. }
  eexists. split; [exact (update_reads self both) |].
  rewrite area. unfold bars, labels, rendered; simpl chartGroup.
  rewrite variance_labels_of_chart, bars_of_chart, labels_of_chart.
  unfold bubble_of. rewrite Hfirst, Hsecond.
  rewrite Hsettings at 1. simpl show. simpl andb. cbv iota.
  split.
  { apply renderVarianceBubble_label; assumption. }
  split.
  { rewrite map_map. apply map_ext. intro d.
    change (attr_str "fill" (barElement ?s ?x ?y ?a ?b d))
      with (Some (barFill s a b d)).
    unfold barFill. rewrite Hsettings. simpl.
    destruct ((index d =? 0) || (index d =? 1)); reflexivity. }
  rewrite Hsettings at 1. simpl showDataLabels. cbv iota. apply length_map.
Qed.

Lemma or_else_not_empty (s fallback : string) :
  fallback <> "" -> or_else s fallback <> "".
Proof.
  intro H. unfold or_else. destruct (String.eqb_spec s ""); assumption.
Qed.

(** X15.  No bar is drawn with an empty fill: the fill is the selected or
    the default colour of the settings, and for an empty colour setting
    these are "#ED7D31" and "#4472C4". *)
Theorem bar_fill_never_empty (self : Visual) (options : VisualUpdateOptions)
    (dataView : DataView) (dataPoints : list BarDataPoint)
    (both : reads options dataView dataPoints)
    (area : drawable options = true) :
  let settings := populateFormattingSettingsModel dataView in
  exists self',
    update self options = Some self'
    /\ (forall bar, In bar (bars self') ->
        exists c, attr_str "fill" bar = Some c
                  /\ c <> ""
                  /\ (c = selectedColor_of settings \/ c = defaultBarColor_of settings))
    /\ (selectedBarColor (barSettingsCard settings) = "" ->
        selectedColor_of settings = "#ED7D31")
    /\ (barColor (barSettingsCard settings) = "" ->
        defaultBarColor_of settings = "#4472C4").
Proof.
  cbv zeta. eexists. split; [exact (update_reads self both) |].
  rewrite area. unfold bars, rendered; simpl chartGroup. rewrite bars_of_chart.
  split; [| split].
  - intros bar Hbar. apply in_map_iff in Hbar. destruct Hbar as (d & <- & _).
    eexists. split; [reflexivity |].
    unfold barFill, selectedColor_of, defaultBarColor_of.
    destruct (_ && _).
    + split; [apply or_else_not_empty; discriminate | now left].
    + split; [apply or_else_not_empty; discriminate | now right].
  - unfold selectedColor_of. intros ->. reflexivity.
  - unfold defaultBarColor_of. intros ->. reflexivity.
Qed.

(** X16.  After a rendering, an [update] whose viewport leaves no inner
    area empties the chart group and leaves the [svg] at the size of the
    rendering before, while the retained settings are those of the new
    data view. *)
Theorem collapse_after_rendering (self : Visual)
    (earlier later : VisualUpdateOptions)
    (dataView1 dataView2 : DataView) (dataPoints1 dataPoints2 : list BarDataPoint)
    (both1 : reads earlier dataView1 dataPoints1)
    (area1 : drawable earlier = true)
    (both2 : reads later dataView2 dataPoints2)
    (area2 : drawable later = false) :
  exists self1 self2,
    update self earlier = Some self1
    /\ update self1 later = Some self2
    /\ chartGroup self2 = []
    /\ svg_width self2 = Some (width (viewport earlier))
    /\ svg_height self2 = Some (height (viewport earlier))
    /\ chartGroup_transform self2 = chartGroup_transform self1
    /\ formattingSettings self2 = Some (populateFormattingSettingsModel dataView2).
Proof.
  do 2 eexists. split; [exact (update_reads self both1) |].
  rewrite area1. split; [exact (update_reads _ both2) |].
  rewrite area2. repeat split.
Qed.

End Defaults.

(** ** The further properties on examples *)

Section MoreExamples.

#[local] Existing Instance Example.runtime.

Local Open Scope string_scope.
Local Open Scope list_scope.

Lemma falling_reads : reads Cases.falling Cases.falling_view Cases.falling_points.
Proof. do 3 eexists. repeat split; reflexivity. Qed.

Lemma single_reads :
  reads Cases.single Cases.single_view [Example.point "Only" 7 0].
Proof. do 3 eexists. repeat split; reflexivity. Qed.

Lemma flat_reads : reads Cases.flat Example.sales_view Example.sales_points.
Proof. do 3 eexists. repeat split; reflexivity. Qed.



(** X8, witness: the sales table gets its bubble as the last child. *)
Lemma bubble_drawn_when_due_witness :
  exists self' others group,
    update constructor Example.sales = Some self'
    /\ chartGroup self' = others ++ [group]
    /\ map tag_of (descendants group)
       = [Some "g"; Some "line"; Some "line"; Some "circle"; Some "text"].
Proof.
  destruct (@bubble_drawn_when_due Example.runtime constructor Example.sales
              Example.sales_view Example.sales_points sales_reads eq_refl)
    as (self' & Hupdate & _ & Hdue).
  destruct (Hdue eq_refl) as (others & group & Hlast & _ & Htags & _).
  exists self', others, group. split; [exact Hupdate |].
  split; [exact Hlast | exact Htags].
Defined.

(** X9, witness: a single row. *)
Lemma no_bubble_below_two_rows_witness :
  exists self', update constructor Cases.single = Some self' /\ bubble_elements self' = [].
Proof.
  destruct (@no_bubble_below_two_rows Example.runtime constructor Cases.single
              Cases.single_view [Example.point "Only" 7 0] single_reads)
    as (_ & _ & self' & Hupdate & Hnone).
  - simpl. lia.
  - exists self'. split; [exact Hupdate | exact Hnone].
Defined.

(** X10, witness: the sales table. *)
Lemma children_in_document_order_witness :
  exists self' xAxis yAxis,
    update constructor Example.sales = Some self'
    /\ chartGroup self'
       = [xAxis; yAxis] ++ bars self' ++ labels self'
           ++ selectAll "variance-bubble-group" (chartGroup self')
    /\ List.length (bars self') = 3%nat.
Proof.
  destruct (@children_in_document_order Example.runtime constructor Example.sales
              Example.sales_view Example.sales_points sales_reads eq_refl)
    as (self' & xAxis & yAxis & Hupdate & Horder & _ & _ & _ & Hbars).
  exists self', xAxis, yAxis. split; [exact Hupdate |].
  split; [exact Horder | exact Hbars].
Defined.

(** X11, witness: from 200 down to 150 the bubble has the negative colour. *)
Lemma bubble_colour_follows_sign_witness :
  exists self',
    update constructor Cases.falling = Some self'
    /\ map (attr_str "fill") (selectAll "variance-bubble" (chartGroup self'))
       = [Some "#FF0000"]
    /\ variance_labels (chartGroup self') = [Some "-25.0%"].
Proof.
  destruct (@bubble_colour_follows_sign Example.runtime constructor Cases.falling
              Cases.falling_view Cases.falling_points
              (Example.point "Q1" 200 0) (Example.point "Q2" 150 1)
              falling_reads eq_refl eq_refl eq_refl eq_refl)
    as (self' & Hupdate & Hfill & _ & rest & Hlabel).
  exists self'. split; [exact Hupdate |]. split; [exact Hfill |].
  vm_compute in Hupdate. inversion Hupdate. reflexivity.
Defined.


Lemma near_reads : reads Cases.near Cases.near_view Cases.near_points.
Proof. do 3 eexists. repeat split; reflexivity. Qed.



(** X14, witness: a table of 2000 and 2003 that persists no property. *)
Lemma defaults_compare_first_two_witness :
  exists self',
    update constructor Cases.near = Some self'
    /\ variance_labels (chartGroup self') = [Some "+0.1%"]
    /\ map (attr_str "fill") (bars self') = [Some "#ED7D31"; Some "#ED7D31"].
Proof.
  destruct (@defaults_compare_first_two Example.runtime constructor Cases.near
              Cases.near_view Cases.near_points
              (Example.point "Old" 2000 0) (Example.point "New" 2003 1)
              near_reads eq_refl eq_refl eq_refl eq_refl)
    as (self' & Hupdate & Hlabel & Hfill & _).
  - discriminate.
  - exists self'. split; [exact Hupdate |]. split.
    + rewrite Hlabel. vm_compute. reflexivity.
    + exact Hfill.
Defined.

(** X15, witness: the falling table persists an empty bar colour. *)
Lemma bar_fill_never_empty_witness :
  exists self',
    update constructor Cases.falling = Some self'
    /\ defaultBarColor_of (populateFormattingSettingsModel Cases.falling_view)
       = "#4472C4".
Proof.
  destruct (@bar_fill_never_empty Example.runtime constructor Cases.falling
              Cases.falling_view Cases.falling_points falling_reads eq_refl)
    as (self' & Hupdate & _ & _ & Hdefault).
  exists self'. split; [exact Hupdate | exact (Hdefault eq_refl)].
Defined.

(** X16, witness: the sales table at 400 by 300, then at 400 by 100. *)
Lemma collapse_after_rendering_witness :
  exists self1 self2,
    update constructor Example.sales = Some self1
    /\ update self1 Cases.flat = Some self2
    /\ chartGroup self2 = []
    /\ svg_width self2 = Some 400%Q.
Proof.
  destruct (@collapse_after_rendering Example.runtime constructor
              Example.sales Cases.flat
              Example.sales_view Example.sales_view
              Example.sales_points Example.sales_points
              sales_reads eq_refl flat_reads eq_refl)
    as (self1 & self2 & Hfirst & Hsecond & Hgroup & Hwidth & _).
  exists self1, self2. split; [exact Hfirst |]. split; [exact Hsecond |].
  split; [exact Hgroup | exact Hwidth].
Defined.

End MoreExamples.
